(** * customer-reviews-iac: the CDK stack, the CDK app and the Jenkins pipeline

    The repository holds three pieces of code:
    - [lib/customer-reviews-iac-stack.ts]: the constructor of
      [CustomerReviewsIacStack], which declares a bucket, two Lambda
      functions, a REST API, a scheduled rule and five outputs;
    - the CDK app entry point, which picks the stack id from the [prNumber]
      context and instantiates the stack;
    - the [Jenkinsfile], a declarative pipeline of nine stages whose shell
      steps call [npm], [aws] and [npx cdk].

    The constructor is embedded as a computation in a state monad over the
    construct tree it fills; the pipeline as a syntax tree of its stages and
    shell scripts with an interpreter that asks an oracle for the outcome of
    every external action.  What the construct library, the deployment
    service and the CI server do with these declarations is outside the
    repository; where a statement needs it, the behaviour is written out as a
    small model of its own and named as such. *)

From stdpp Require Import base strings gmap list.
From Stdlib Require Import Ascii ZArith.

Local Open Scope Z_scope.
Set Warnings "-register-all".

(** ** JavaScript values read from the context *)

Module JS.

(** Context values given on the command line ([--context key=value]) are
    strings; a missing key reads as [undefined], here [None]. *)
Definition value := option string.

(** JavaScript truthiness of such a value: [undefined] and the empty string
    are falsy, every other string is truthy. *)
Definition truthy (v : value) : bool :=
  match v with
  | None => false
  | Some s => negb (String.eqb s "")
  end.

(** [v || d] for a string default [d]. *)
Definition or (v : value) (d : string) : string :=
  match v with
  | Some s => if truthy v then s else d
  | None => d
  end.

End JS.

(** ** The part of the construct library the stack uses *)

Module Cdk.

Inductive TimeUnit := Seconds | Minutes | Hours | Days.

Record Duration := { amount : Z; time_unit : TimeUnit }.

Module Duration.
Definition seconds (n : Z) : Duration := {| amount := n; time_unit := Seconds |}.
Definition minutes (n : Z) : Duration := {| amount := n; time_unit := Minutes |}.
Definition hours (n : Z) : Duration := {| amount := n; time_unit := Hours |}.
Definition days (n : Z) : Duration := {| amount := n; time_unit := Days |}.

Definition toSeconds (d : Duration) : Z :=
  match time_unit d with
  | Seconds => amount d
  | Minutes => 60 * amount d
  | Hours => 3600 * amount d
  | Days => 86400 * amount d
  end.
End Duration.

(** [events.Schedule]: a rate, a cron expression or a literal expression. *)
Record CronOptions := {
  cron_minute : option string; cron_hour : option string;
  cron_day : option string; cron_month : option string;
  cron_year : option string; cron_weekDay : option string }.

Inductive Schedule :=
| rate (d : Duration)
| cron (o : CronOptions)
| expression (e : string).

Definition is_rate (s : Schedule) : bool :=
  match s with rate _ => true | _ => false end.

(** Values that are only known at deployment: attributes of constructs,
    and template literals that splice them into text. *)
Inductive Token :=
| Lit (s : string)
| bucketName_of (id : string)
| bucketWebsiteUrl_of (id : string)
| url_of (id : string)
| functionArn_of (id : string)
| Template (parts : list Token).

(** Pseudo parameters a stack without [env] resolves [this.account] and
    [this.region] to. *)
Module Aws.
Definition ACCOUNT_ID : string := "${AWS::AccountId}".
Definition REGION : string := "${AWS::Region}".
End Aws.

Record Environment := { env_account : option string; env_region : option string }.
Record StackProps := { env : option Environment }.

Definition stack_env (props : option StackProps) : option Environment :=
  match props with Some p => env p | None => None end.

Definition stack_account (props : option StackProps) : string :=
  match stack_env props with
  | Some {| env_account := Some a |} => a
  | _ => Aws.ACCOUNT_ID
  end.
Definition stack_region (props : option StackProps) : string :=
  match stack_env props with
  | Some {| env_region := Some r |} => r
  | _ => Aws.REGION
  end.

(** *** S3 *)
Inductive HttpMethods := GET | PUT | HEAD | POST | DELETE.
Inductive RemovalPolicy := DESTROY | RETAIN | SNAPSHOT | RETAIN_ON_UPDATE_OR_DELETE.

Record BlockPublicAccess := {
  blockPublicAcls : bool; blockPublicPolicy : bool;
  ignorePublicAcls : bool; restrictPublicBuckets : bool }.

Record CorsRule := {
  allowedMethods : list HttpMethods;
  allowedOrigins : list string;
  allowedHeaders : list string }.

Record BucketProps := {
  bucketName : string;
  publicReadAccess : bool;
  blockPublicAccess : BlockPublicAccess;
  cors : list CorsRule;
  removalPolicy : RemovalPolicy;
  autoDeleteObjects : bool }.

(** *** Lambda *)
Inductive Runtime := NODEJS_18_X | NODEJS_20_X | NODEJS_22_X.

Inductive Code :=
| fromAsset (path : string)
| fromInline (source : string).

Record FunctionProps := {
  runtime : Runtime;
  handler : string;
  functionName : string;
  code : Code;
  environment : list (string * Token);
  timeout : Duration;
  memorySize : Z;
  fn_description : string }.

(** *** API Gateway *)
Record LambdaRestApiProps := {
  api_handler : string;
  restApiName : string;
  api_description : string;
  proxy : bool }.

(** *** EventBridge *)
Record RuleProps := { schedule : Schedule; rule_description : string }.

Inductive RuleTarget := LambdaFunction (fn : string).

(** *** Outputs *)
Record CfnOutputProps := { value : Token; out_description : string }.

(** *** The construct tree

    Every [new X(this, id, props)] adds a child [id] to the stack; the
    object it returns is referred to by that id.  A rule carries the
    targets added to it so far.  The tree holds what the constructor names;
    the checks the library runs on a construct as it is created, and what
    the library adds of its own, follow in [Library]. *)
Inductive Construct :=
| Bucket (p : BucketProps)
| Function (p : FunctionProps)
| LambdaRestApi (p : LambdaRestApiProps)
| Rule (p : RuleProps) (targets : list RuleTarget)
| CfnOutput (p : CfnOutputProps).

Record Grant := { grant_bucket : string; grant_grantee : string; grant_write : bool }.

Record Tree := {
  children : list (string * Construct);
  grants : list Grant }.

Definition empty_tree : Tree := {| children := []; grants := [] |}.

(** State monad over the tree under construction. *)
Definition Build (A : Type) : Type := Tree → A * Tree.

#[global] Instance Build_ret : MRet Build := λ A a t, (a, t).
#[global] Instance Build_bind : MBind Build :=
  λ A B f m t, let '(a, t') := m t in f a t'.

Definition add (id : string) (c : Construct) : Build string :=
  λ t, (id, {| children := children t ++ [(id, c)]; grants := grants t |}).

Definition new_Bucket (id : string) (p : BucketProps) : Build string :=
  add id (Bucket p).
Definition new_Function (id : string) (p : FunctionProps) : Build string :=
  add id (Function p).
Definition new_LambdaRestApi (id : string) (p : LambdaRestApiProps) : Build string :=
  add id (LambdaRestApi p).
Definition new_Rule (id : string) (p : RuleProps) : Build string :=
  add id (Rule p []).
Definition new_CfnOutput (id : string) (p : CfnOutputProps) : Build string :=
  add id (CfnOutput p).

(** [bucket.grantWrite(fn)] *)
Definition grantWrite (bucket fn : string) : Build unit :=
  λ t, (tt, {| children := children t;
               grants := grants t ++
                 [{| grant_bucket := bucket; grant_grantee := fn; grant_write := true |}] |}).

(** [rule.addTarget(target)]: the rule object is changed in place. *)
Definition add_target (rule : string) (tg : RuleTarget) (c : string * Construct)
  : string * Construct :=
  match c with
  | (id, Rule p tgs) => if String.eqb id rule then (id, Rule p (tgs ++ [tg])) else c
  | _ => c
  end.

Definition addTarget (rule : string) (tg : RuleTarget) : Build unit :=
  λ t, (tt, {| children := add_target rule tg <$> children t; grants := grants t |}).

(** Selectors over a finished tree. *)
Definition buckets (t : Tree) : list (string * BucketProps) :=
  omap (λ c, match c with (id, Bucket p) => Some (id, p) | _ => None end) (children t).
Definition functions (t : Tree) : list (string * FunctionProps) :=
  omap (λ c, match c with (id, Function p) => Some (id, p) | _ => None end) (children t).
Definition restApis (t : Tree) : list (string * LambdaRestApiProps) :=
  omap (λ c, match c with (id, LambdaRestApi p) => Some (id, p) | _ => None end) (children t).
Definition rules (t : Tree) : list (string * (RuleProps * list RuleTarget)) :=
  omap (λ c, match c with (id, Rule p tgs) => Some (id, (p, tgs)) | _ => None end) (children t).
Definition outputs (t : Tree) : list (string * CfnOutputProps) :=
  omap (λ c, match c with (id, CfnOutput p) => Some (id, p) | _ => None end) (children t).

Definition bucket_names (t : Tree) : list string :=
  (bucketName ∘ snd) <$> buckets t.
Definition function_names (t : Tree) : list string :=
  (functionName ∘ snd) <$> functions t.
Definition restApi_names (t : Tree) : list string :=
  (restApiName ∘ snd) <$> restApis t.

(** The construct a handle refers to. *)
Definition lookup_function (t : Tree) (id : string) : option FunctionProps :=
  (snd ∘ snd) <$> list_find (λ c, c.1 = id) (functions t).

End Cdk.

(** ** What the deployment service does with a bucket when its stack is deleted

    This is the behaviour of CloudFormation and S3, not code of the
    repository: a bucket whose removal policy is [DESTROY] is deleted with
    the stack, which S3 refuses while the bucket holds objects unless
    [autoDeleteObjects] has emptied it first; under every other policy the
    bucket and its objects stay. *)

Module CloudFormation.
Import Cdk.

Inductive fate := Deleted | DeleteFailed (objects : list string) | Kept (objects : list string).

Definition delete_stack (p : BucketProps) (objects : list string) : fate :=
  match removalPolicy p with
  | DESTROY =>
      if autoDeleteObjects p then Deleted
      else match objects with [] => Deleted | _ => DeleteFailed objects end
  | _ => Kept objects
  end.
End CloudFormation.

(** ** Node.js runtime

    [path.join] on segments that need no normalisation: the segments joined
    by a slash.  The stack takes the function as a parameter; this instance
    serves to run it on concrete inputs. *)

Module Node.
Definition join (segments : list string) : string := String.concat "/" segments.
End Node.

(** ** What the construct library does with the declarations

    [new s3.Bucket], [new lambda.Function] and the [Stack] constructor do
    more than record their props, and this is code of aws-cdk-lib, not of
    the repository.  Four things bear on the stack:
    - names are checked when the construct is created, and a bad name throws:
      a stack name, which is the id with each [/] replaced by [--], must
      match [/^[A-Za-z][A-Za-z0-9-]*$/] and have at most 128 characters; a
      function name must be made of
      letters, digits, hyphens and underscores and have at most 64
      characters; a bucket name is checked against the S3 naming rules, but
      only when it holds no unresolved token, that is when the stack has a
      concrete account.  The S3 rules are a parameter here;
    - the directory of [Code.fromAsset] is staged when the function is
      created, and a directory that does not exist throws.  What exists on
      the disk is a parameter here;
    - a bucket with [autoDeleteObjects] makes the library add to the stack a
      provider of its own, once per stack, whose handler is one more
      [AWS::Lambda::Function];
    - a bucket with [publicReadAccess] lets every principal read its
      objects.
    A check that fails ends the construction: the first failure, in the
    order the constructs are created, is the outcome. *)

Module Library.
Import Cdk.

Definition is_letter (c : ascii) : bool :=
  let n := nat_of_ascii c in
  ((65 <=? n) && (n <=? 90) || (97 <=? n) && (n <=? 122))%nat.

Definition is_digit (c : ascii) : bool :=
  let n := nat_of_ascii c in ((48 <=? n) && (n <=? 57))%nat.

(** [[A-Za-z0-9-]] and [[a-zA-Z0-9-_]] *)
Definition stack_char (c : ascii) : bool :=
  is_letter c || is_digit c || Ascii.eqb c "-".

Definition function_char (c : ascii) : bool :=
  stack_char c || Ascii.eqb c "_".

Fixpoint all_chars (ok : ascii → bool) (s : string) : bool :=
  match s with
  | EmptyString => true
  | String c rest => ok c && all_chars ok rest
  end.

(** [/^[A-Za-z][A-Za-z0-9-]*$/] *)
Definition matches_stackName (n : string) : bool :=
  match n with
  | EmptyString => false
  | String c rest => is_letter c && all_chars stack_char rest
  end.

(** A stack name of at most 128 characters that matches passes.  What the
    library makes of an id that gives a longer name is left out: such an id
    counts as refused. *)
Definition valid_stackName (n : string) : bool :=
  (String.length n <=? 128)%nat && matches_stackName n.

(** A function name that is given has at most 64 characters and matches
    [/^[a-zA-Z0-9-_]+$/]; an empty one counts as not given. *)
Definition valid_functionName (n : string) : bool :=
  (String.length n <=? 64)%nat && all_chars function_char n.

Inductive error :=
| InvalidStackName (n : string)
| InvalidFunctionName (n : string)
| InvalidBucketName (n : string)
| AssetNotFound (path : string).

(** The id of a construct holds no path separator: each [/] of the id
    given becomes [--]. *)
Fixpoint sanitizeId (id : string) : string :=
  match id with
  | EmptyString => EmptyString
  | String c rest =>
      if Ascii.eqb c "/" then String "-" (String "-" (sanitizeId rest))
      else String c (sanitizeId rest)
  end.

(** The stack has a concrete account: its names hold no token. *)
Definition account_resolved (props : option StackProps) : bool :=
  match stack_env props with
  | Some {| env_account := Some _ |} => true
  | _ => false
  end.

(** The id of the provider behind [autoDeleteObjects]. *)
Definition AUTO_DELETE_OBJECTS_PROVIDER : string :=
  "Custom::S3AutoDeleteObjectsCustomResourceProvider".

Section Checks.
(** The S3 naming rules, and the paths that exist on the disk. *)
Variable valid_bucketName : string → bool.
Variable existsSync : string → bool.

(** An asset is staged when its function is constructed. *)
Definition check_code (c : Code) : option error :=
  match c with
  | fromAsset path => if existsSync path then None else Some (AssetNotFound path)
  | fromInline _ => None
  end.

Definition check (resolved : bool) (c : string * Construct) : option error :=
  match c with
  | (_, Bucket p) =>
      if resolved && negb (valid_bucketName (bucketName p))
      then Some (InvalidBucketName (bucketName p)) else None
  | (_, Function p) =>
      if valid_functionName (functionName p)
      then check_code (code p) else Some (InvalidFunctionName (functionName p))
  | _ => None
  end.

Fixpoint first_error (resolved : bool) (cs : list (string * Construct))
  : option error :=
  match cs with
  | [] => None
  | c :: cs' =>
      match check resolved c with
      | Some e => Some e
      | None => first_error resolved cs'
      end
  end.

Definition provided_by (c : string * Construct) : list string :=
  match c with
  | (_, Bucket p) => if autoDeleteObjects p then [AUTO_DELETE_OBJECTS_PROVIDER] else []
  | _ => []
  end.

Definition public_read (c : string * Construct) : option string :=
  match c with
  | (id, Bucket p) => if publicReadAccess p then Some id else None
  | _ => None
  end.

(** A stack that was constructed: its id, the constructs its constructor
    names, the providers the library added and the buckets every principal
    may read. *)
Record Instance := {
  inst_id : string;
  inst_declared : Tree;
  inst_provided : list string;
  inst_public_read : list string }.

(** What becomes of the declarations [t] made by the constructor of a stack
    created with [id] and [props]: the first check that fails on the way
    throws, the stack name first, then the constructs in the order the
    constructor names them. *)
Definition instantiate (id : string) (props : option StackProps) (t : Tree)
  : error + Instance :=
  let stackName := sanitizeId id in
  if valid_stackName stackName then
    match first_error (account_resolved props) (children t) with
    | Some e => inl e
    | None =>
        inr {| inst_id := stackName;
               inst_declared := t;
               inst_provided := remove_dups (mjoin (provided_by <$> children t));
               inst_public_read := omap public_read (children t) |}
    end
  else inl (InvalidStackName stackName).

End Checks.



(** The [AWS::Lambda::Function] resources of a stack: the functions its
    constructor names and the handler of each provider. *)
Definition lambda_function_resources (i : Instance) : list string :=
  (functions (inst_declared i)).*1 ++ inst_provided i.

End Library.

(** ** lib/customer-reviews-iac-stack.ts *)

Module Lib.
Import Cdk.

Section Constructor.
(** [path.join] and [process.cwd()] belong to the Node.js runtime, the
    context to the CDK app the stack is created in. *)
Variable path_join : list string → string.
Variable cwd : string.
Variable context : gmap string string.

Definition tryGetContext (key : string) : JS.value := context !! key.

Definition prNumber : string := JS.or (tryGetContext "prNumber") "default".

Definition prSuffix : string :=
  if negb (String.eqb prNumber "default") then "-pr-" +:+ prNumber else "".

Definition CustomerReviewsIacStack (id : string) (props : option StackProps)
  : Build unit :=
  let account := stack_account props in
  let region := stack_region props in
  (* S3 bucket to store HTML review fragments *)
  reviewsBucket ← new_Bucket "ReviewsFragmentsBucket" {|
    bucketName := "customer-reviews-fragments" +:+ prSuffix +:+ "-" +:+ account;
    publicReadAccess := true;
    blockPublicAccess := {|
      blockPublicAcls := false;
      blockPublicPolicy := false;
      ignorePublicAcls := false;
      restrictPublicBuckets := false |};
    cors := [ {| allowedMethods := [GET];
                 allowedOrigins := ["*"];
                 allowedHeaders := ["*"] |} ];
    removalPolicy := DESTROY;
    autoDeleteObjects := true |};
  (* Mock API Lambda (serves fake review data) *)
  mockApiLambda ← new_Function "MockApiLambda" {|
    runtime := NODEJS_22_X;
    handler := "handler.handler";
    functionName := "mock-api-lambda" +:+ prSuffix;
    code := fromAsset (path_join [cwd; "customer-reviews-app/dist/mock-api"]);
    environment := [];
    timeout := Duration.seconds 30;
    memorySize := 512;
    fn_description := "Mock API that returns fake product review data" |};
  (* API Gateway for mock API Lambda *)
  mockApi ← new_LambdaRestApi "MockApiGateway" {|
    api_handler := mockApiLambda;
    restApiName := "CustomerReviewsMockAPI" +:+ prSuffix;
    api_description := "Mock API Gateway for customer reviews data";
    proxy := true |};
  (* Reviews Lambda (fetches from mock API, renders HTML, saves to S3) *)
  reviewsLambda ← new_Function "ReviewsLambda" {|
    runtime := NODEJS_22_X;
    handler := "index.handler";
    functionName := "customer-reviews-lambda" +:+ prSuffix;
    code := fromAsset (path_join [cwd; "customer-reviews-app/dist"]);
    environment := [ ("API_BASE_URL", url_of mockApi);
                     ("PRODUCT_IDS", Lit "product-a,product-b");
                     ("OUTPUT_BUCKET", bucketName_of reviewsBucket) ];
    timeout := Duration.minutes 5;
    memorySize := 512;
    fn_description := "Fetches reviews and generates HTML fragments in S3" |};
  (* Grant S3 write permissions to reviews Lambda *)
  grantWrite reviewsBucket reviewsLambda;;
  (* EventBridge rule to trigger reviews Lambda every hour *)
  hourlyRule ← new_Rule "HourlyReviewsUpdate" {|
    schedule := rate (Duration.minutes 5);
    rule_description := "Triggers reviews Lambda every hour to update fragments" |};
  addTarget hourlyRule (LambdaFunction reviewsLambda);;
  (* CloudFormation outputs *)
  new_CfnOutput "ReviewsBucketName" {|
    value := bucketName_of reviewsBucket;
    out_description := "S3 bucket storing HTML review fragments" |};;
  new_CfnOutput "ReviewsBucketURL" {|
    value := bucketWebsiteUrl_of reviewsBucket;
    out_description := "Public URL for S3 bucket" |};;
  new_CfnOutput "MockApiEndpoint" {|
    value := url_of mockApi;
    out_description := "Mock API Gateway endpoint URL" |};;
  new_CfnOutput "ReviewsLambdaArn" {|
    value := functionArn_of reviewsLambda;
    out_description := "ARN of the reviews processing Lambda" |};;
  new_CfnOutput "MainPageURL" {|
    value := Template [ Lit "https://"; bucketName_of reviewsBucket; Lit ".s3.";
                        Lit region; Lit ".amazonaws.com/index.html" ];
    out_description := "Main HTML page with ESI includes (for Fastly CDN)" |};;
  mret ().

(** The construct tree of a stack built in an empty scope. *)
Definition construct (id : string) (props : option StackProps) : Tree :=
  (CustomerReviewsIacStack id props empty_tree).2.

End Constructor.

(** The outcome of [new CustomerReviewsIacStack(scope, id, props)]: the
    declarations of the constructor, as the construct library takes them. *)
Definition instantiate (valid_bucketName existsSync : string → bool)
    (path_join : list string → string) (cwd : string)
    (context : gmap string string) (id : string) (props : option StackProps)
  : Library.error + Library.Instance :=
  Library.instantiate valid_bucketName existsSync id props
    (construct path_join cwd context id props).

(** The PR numbers whose names pass every check on the way from the entry
    point to the last construct: letters, digits and hyphens, 37 of them at
    most (the longest name, that of the reviews Lambda, has 27 characters
    before the PR number, and an underscore does not pass as part of a
    stack name). *)
Definition accepted (c : string) : bool :=
  Library.all_chars Library.stack_char c && (String.length c <=? 37)%nat.

End Lib.

(** ** The CDK app entry point *)

Module Bin.
Import Cdk.

Record Stack := { stack_id : string; stack_tree : Tree }.

Section App.
Variable path_join : list string → string.
Variable cwd : string.
(** The context of [new cdk.App()], as given with [--context]. *)
Variable context : gmap string string.

Definition tryGetContext (key : string) : JS.value := context !! key.

Definition prNumber : string := JS.or (tryGetContext "prNumber") "default".

Definition stackName : string :=
  if negb (String.eqb prNumber "default")
  then "CustomerReviewsIacStack-" +:+ prNumber
  else "CustomerReviewsIacStack".

(** [new CustomerReviewsIacStack(app, stackName, {})]: the stack shares
    the app's context and is given no [env]. *)
Definition app : Stack :=
  {| stack_id := stackName;
     stack_tree := Lib.construct path_join cwd context stackName
                     (Some {| env := None |}) |}.

(** The S3 naming rules, and the paths that exist on the disk. *)
Variable valid_bucketName : string → bool.
Variable existsSync : string → bool.

(** The outcome of running the entry point: the stack of [app] or the error
    the constructor throws. *)
Definition main : Library.error + Library.Instance :=
  Lib.instantiate valid_bucketName existsSync path_join cwd context stackName
    (Some {| env := None |}).
End App.
End Bin.

(** ** Shell scripts of the pipeline's [sh] steps

    The fragment of POSIX shell the Jenkinsfile uses: assignments, [export],
    [echo], commands and pipelines with redirections, command substitution,
    [if] over file tests and commands, [cmd || handler] and [exit].  Scripts
    run as Jenkins runs them, under [-e]: a failing command that is neither a
    condition nor the left side of [||] ends the script with its status.
    Field splitting of unquoted expansions is not modelled. *)

Module Sh.

(** Text and [${x}]. *)
Inductive part0 := L (s : string) | V (x : string).
Definition word0 := list part0.

Record cmd (W : Type) := Cmd {
  prog : W;
  args : list W;
  stdout_to : option W;     (* [> file] *)
  stderr_null : bool }.     (* [2>/dev/null] *)
Arguments Cmd {W}.
Arguments prog {W}.
Arguments args {W}.
Arguments stdout_to {W}.
Arguments stderr_null {W}.

(** [c1 | c2 | ...] *)
Definition pipeline (W : Type) := list (cmd W).

(** [$(p)] and [$(p || echo w)]. *)
Record subst := Subst { sub_try : pipeline word0; sub_or_echo : option word0 }.

Inductive part := P (p : part0) | Sub (s : subst).
Definition word := list part.

Inductive cond :=
| test_f (w : word)                 (* [ -f w ] *)
| test_z (w : word)                 (* [ -z w ] *)
| cnot (c : cond)
| cor (a b : cond)
| crun (p : pipeline word).

Inductive stmt :=
| assign (x : string) (w : word)
| export (x : string) (w : word)
| echo (w : word)
| run (p : pipeline word)
| run_or (p : pipeline word) (h : stmt)
| ite (c : cond) (t e : stmt)
| exit (n : Z)
| seq (a b : stmt)
| skip.

Definition script (l : list stmt) : stmt := foldr seq skip l.

(** How a script leaves a statement: on to the next one, or out of the
    script with a status. *)
Inductive flow := Next | Exit (status : Z).

(** Shell variables. *)
Abbreviation vars := (gmap string string).

Section Run.
(** The machine the script runs on: [exec w p] runs the pipeline [p] in
    world [w] and gives its exit status, what it printed and the world
    afterwards; [is_file w f] is the test [-f f]. *)
Context {World : Type}.
Variable exec : World → pipeline string → Z * string * World.
Variable is_file : World → string → bool.

Definition expand0 (vs : vars) (w : word0) : string :=
  String.concat ""
    ((λ p, match p with L s => s | V x => default "" (vs !! x) end) <$> w).

Definition expand_cmd0 (vs : vars) (c : cmd word0) : cmd string :=
  Cmd (expand0 vs (prog c)) (expand0 vs <$> args c)
      (expand0 vs <$> stdout_to c) (stderr_null c).

(** A substitution gives the status of the last command it ran and the
    text printed. *)
Definition run_subst (vs : vars) (w : World) (s : subst) : Z * string * World :=
  let '(st, out, w') := exec w (expand_cmd0 vs <$> sub_try s) in
  match sub_or_echo s with
  | Some msg => if bool_decide (st = 0) then (st, out, w')
                else (0, out +:+ expand0 vs msg, w')
  | None => (st, out, w')
  end.

(** A word expands left to right; its status is that of its last
    substitution, [st] when it has none. *)
Fixpoint expand_from (st : Z) (vs : vars) (w : World) (wd : word)
  : Z * string * World :=
  match wd with
  | [] => (st, "", w)
  | P p :: wd' =>
      let '(st', out, w') := expand_from st vs w wd' in
      (st', expand0 vs [p] +:+ out, w')
  | Sub s :: wd' =>
      let '(st1, out1, w1) := run_subst vs w s in
      let '(st', out, w') := expand_from st1 vs w1 wd' in
      (st', out1 +:+ out, w')
  end.

Definition expand : vars → World → word → Z * string * World := expand_from 0.

Fixpoint expand_list (vs : vars) (w : World) (l : list word) : list string * World :=
  match l with
  | [] => ([], w)
  | wd :: l' =>
      let '(_, s, w1) := expand vs w wd in
      let '(ss, w2) := expand_list vs w1 l' in
      (s :: ss, w2)
  end.

Definition expand_cmd (vs : vars) (w : World) (c : cmd word) : cmd string * World :=
  let '(_, p, w1) := expand vs w (prog c) in
  let '(a, w2) := expand_list vs w1 (args c) in
  match stdout_to c with
  | Some f => let '(_, f', w3) := expand vs w2 f in
              (Cmd p a (Some f') (stderr_null c), w3)
  | None => (Cmd p a None (stderr_null c), w2)
  end.

Fixpoint expand_pipeline (vs : vars) (w : World) (p : pipeline word)
  : pipeline string * World :=
  match p with
  | [] => ([], w)
  | c :: p' =>
      let '(c', w1) := expand_cmd vs w c in
      let '(cs, w2) := expand_pipeline vs w1 p' in
      (c' :: cs, w2)
  end.

Definition run_pipeline (vs : vars) (w : World) (p : pipeline word) : Z * World :=
  let '(p', w1) := expand_pipeline vs w p in
  let '(st, _, w2) := exec w1 p' in
  (st, w2).

Fixpoint test (vs : vars) (w : World) (c : cond) : bool * World :=
  match c with
  | test_f wd => let '(_, f, w1) := expand vs w wd in (is_file w1 f, w1)
  | test_z wd => let '(_, s, w1) := expand vs w wd in (String.eqb s "", w1)
  | cnot c' => let '(b, w1) := test vs w c' in (negb b, w1)
  | cor a b => let '(x, w1) := test vs w a in
               if x then (true, w1) else test vs w1 b
  | crun p => let '(st, w1) := run_pipeline vs w p in (bool_decide (st = 0), w1)
  end.

Fixpoint exec_stmt (s : stmt) (vs : vars) (w : World) : flow * vars * World :=
  match s with
  | assign x wd =>
      let '(st, v, w1) := expand vs w wd in
      (if bool_decide (st = 0) then Next else Exit st, <[x := v]> vs, w1)
  | export x wd =>
      let '(_, v, w1) := expand vs w wd in (Next, <[x := v]> vs, w1)
  | echo wd => let '(_, _, w1) := expand vs w wd in (Next, vs, w1)
  | run p =>
      let '(st, w1) := run_pipeline vs w p in
      (if bool_decide (st = 0) then Next else Exit st, vs, w1)
  | run_or p h =>
      let '(st, w1) := run_pipeline vs w p in
      if bool_decide (st = 0) then (Next, vs, w1) else exec_stmt h vs w1
  | ite c t e =>
      let '(b, w1) := test vs w c in
      if b then exec_stmt t vs w1 else exec_stmt e vs w1
  | exit n => (Exit n, vs, w)
  | seq a b =>
      match exec_stmt a vs w with
      | (Next, vs1, w1) => exec_stmt b vs1 w1
      | r => r
      end
  | skip => (Next, vs, w)
  end.

(** Exit status of a whole script. *)
Definition status (f : flow) : Z := match f with Next => 0 | Exit n => n end.

End Run.





End Sh.

(** ** The Jenkinsfile *)

Module Jenkinsfile.
Import Sh.

Coercion P : part0 >-> part.

Definition lit (s : string) : word := [P (L s)].
Definition lits (l : list string) : list word := lit <$> l.
Definition lit0 (s : string) : word0 := [L s].
Definition lits0 (l : list string) : list word0 := lit0 <$> l.

(** The double quote character, for the patterns given to [grep] and [cut]. *)
Definition dq : string := String "034"%char "".

(** Steps.  A [script { ... }] block of the file holds [echo] steps only
    and is written as those steps. *)
Inductive step :=
| jecho (msg : word0)
| checkout_scm
| checkout_git (branch url credentialsId : string)
| dir (path : string) (body : step)
| sh (script : stmt)
| withCredentials (credentialsId : word0) (body : step).

Record stage := Stage {
  name : string;
  when : option (gmap string string → bool);
  steps : list step }.

Definition banner (lines : list word0) : list step :=
  [jecho (lit0 "============================================")]
  ++ (jecho <$> lines)
  ++ [jecho (lit0 "============================================")].

(** *** Shell scripts of the stages *)

Definition setup_node_sh : stmt := script [
  run [Cmd (lit "node") (lits ["--version"]) None false];
  run [Cmd (lit "npm") (lits ["--version"]) None false];
  echo (lit "Node.js and npm are available") ].

Definition install_sh : stmt := script [
  run [Cmd (lit "npm") (lits ["install"]) None false];
  run [Cmd (lit "npm") (lits ["list"; "aws-cdk-lib"; "constructs"; "typescript"]) None false] ].

Definition CONFIG_FILE : word := [P (L "config/pr-"); P (V "PR_NUMBER"); P (L "/config.json")].

Definition read_config_sh : stmt := script [
  assign "CONFIG_FILE" CONFIG_FILE;
  ite (test_f [P (V "CONFIG_FILE")])
    (script [
      echo (lit "Found PR configuration:");
      run [Cmd (lit "cat") [[P (V "CONFIG_FILE")]] None false];
      export "PR_CONFIG_EXISTS" (lit "true") ])
    (script [
      echo (lit "No PR-specific config found, using default deployment");
      export "PR_CONFIG_EXISTS" (lit "false") ]) ].

(** [$(which aws 2>/dev/null || echo "/opt/homebrew/bin/aws")] *)
Definition which_aws : word :=
  [Sub (Subst [Cmd (lit0 "which") (lits0 ["aws"]) None true]
              (Some (lit0 "/opt/homebrew/bin/aws")))].

Definition describe_toolkit : cmd word :=
  Cmd [P (V "AWS_CLI")]
      (lits ["cloudformation"; "describe-stacks"; "--stack-name"; "CDKToolkit"; "--region"]
       ++ [[P (V "AWS_REGION")]])
      None true.

Definition caller_account : subst :=
  Subst [Cmd [V "AWS_CLI"]
             (lits0 ["sts"; "get-caller-identity"; "--query"; "Account"; "--output"; "text"])
             None false]
        None.

Definition bootstrap_sh : stmt := script [
  assign "AWS_CLI" which_aws;
  ite (cnot (test_f [P (V "AWS_CLI")]))
    (assign "AWS_CLI"
       [Sub (Subst [Cmd (lit0 "find")
                        (lits0 ["/opt/homebrew"; "/usr/local"; "/usr"; "-name"; "aws"])
                        None true;
                    Cmd (lit0 "head") (lits0 ["-1"]) None false]
                   None)])
    skip;
  ite (cor (test_z [P (V "AWS_CLI")]) (cnot (test_f [P (V "AWS_CLI")])))
    (script [ echo (lit "ERROR: AWS CLI not found"); exit 1 ])
    skip;
  ite (cnot (crun [describe_toolkit]))
    (script [
      echo (lit "Bootstrapping CDK...");
      run [Cmd (lit "npx")
               (lits ["cdk"; "bootstrap"]
                ++ [[P (L "aws://"); Sub caller_account; P (L "/"); P (V "AWS_REGION")]])
               None false] ])
    (echo (lit "CDK already bootstrapped")) ].

Definition cdk_synth : cmd word :=
  Cmd (lit "npx")
      (lits ["cdk"; "synth"; "--context"] ++ [[P (L "prNumber="); P (V "PR_NUMBER")]])
      (Some (lit "synth-output.yaml")) false.

Definition synth_sh : stmt := script [
  run_or [cdk_synth] (script [ echo (lit "CDK synthesis failed"); exit 1 ]);
  echo (lit "CloudFormation template generated successfully") ].

(** The stack name, from the configuration file when there is one. *)
Definition stack_name_sh : stmt := script [
  assign "CONFIG_FILE" CONFIG_FILE;
  ite (test_f [P (V "CONFIG_FILE")])
    (assign "STACK_NAME"
       [Sub (Subst [Cmd (lit0 "cat") [[V "CONFIG_FILE"]] None false;
                    Cmd (lit0 "grep")
                        (lits0 ["-o"; dq +:+ "stackName" +:+ dq +:+ ": " +:+ dq +:+ "[^" +:+ dq +:+ "]*"])
                        None false;
                    Cmd (lit0 "cut") (lits0 ["-d" +:+ dq; "-f4"]) None false]
                   None)])
    (assign "STACK_NAME" [P (L "CustomerReviewsIacStack-"); P (V "PR_NUMBER")]) ].

Definition cdk_deploy : cmd word :=
  Cmd (lit "npx")
      (lits ["cdk"; "deploy"; "--all"; "--require-approval"; "never"; "--context"]
       ++ [[P (L "prNumber="); P (V "PR_NUMBER")]])
      None false.

Definition deploy_sh : stmt := script [
  stack_name_sh;
  echo [P (L "Deploying stack: "); P (V "STACK_NAME")];
  run_or [cdk_deploy] (script [ echo (lit "CDK deployment failed"); exit 1 ]);
  echo [P (L "Stack "); P (V "STACK_NAME"); P (L " deployed successfully")] ].

Definition describe_stack : cmd word :=
  Cmd [P (V "AWS_CLI")]
      (lits ["cloudformation"; "describe-stacks"; "--stack-name"]
       ++ [[P (V "STACK_NAME")]]
       ++ lits ["--query"; "Stacks[0].Outputs"; "--output"; "table"; "--region"]
       ++ [[P (V "AWS_REGION")]])
      None false.

Definition outputs_sh : stmt := script [
  stack_name_sh;
  assign "AWS_CLI" which_aws;
  ite (test_f [P (V "AWS_CLI")])
    (script [
      echo (lit "Stack Outputs:");
      run_or [describe_stack] (echo (lit "Could not retrieve stack outputs")) ])
    skip ].

(** *** Stages

    The [options] block (ten builds kept) and the [tools] block (NodeJS-22
    put on the PATH) say nothing about which stages run and are left
    out. *)

Definition aws_credentials (body : step) : step :=
  withCredentials [V "AWS_CREDENTIALS_ID"] body.

Definition bootstrap_when (env : gmap string string) : bool :=
  bool_decide (env !! "PR_NUMBER" = Some "default")
  || bool_decide (env !! "BOOTSTRAP_CDK" = Some "true").

Definition stages : list stage := [
  Stage "Checkout Infrastructure Code" None
    (banner [lit0 "Checking out Infrastructure repository";
             [L "PR Number: "; V "PR_NUMBER"]]
     ++ [checkout_scm]);
  Stage "Checkout App Code" None
    (banner [lit0 "Checking out Customer Reviews App repository"]
     ++ [dir "customer-reviews-app"
           (checkout_git "*/main"
              "https://github.com/DeepakDevProjects/customer-reviews-app.git" "")]);
  Stage "Setup Node.js" None [sh setup_node_sh];
  Stage "Install Dependencies" None [sh install_sh];
  Stage "Read PR Configuration" None
    (banner [[L "Reading PR "; V "PR_NUMBER"; L " configuration"]]
     ++ [sh read_config_sh]);
  Stage "Bootstrap CDK" (Some bootstrap_when)
    [aws_credentials (sh bootstrap_sh)];
  Stage "Synthesize CDK" None
    (banner [lit0 "Synthesizing CloudFormation template";
             [L "PR Number: "; V "PR_NUMBER"]]
     ++ [sh synth_sh]);
  Stage "Deploy CDK Stack" None
    (banner [lit0 "Deploying CDK stack"; [L "PR Number: "; V "PR_NUMBER"]]
     ++ [aws_credentials (sh deploy_sh)]);
  Stage "Display Stack Outputs" None
    (banner [lit0 "Stack deployment completed"; [L "PR Number: "; V "PR_NUMBER"]]
     ++ [aws_credentials (sh outputs_sh)]) ].

(** *** The [parameters] and [environment] blocks *)

(** Groovy truth of a string that may be [null]. *)
Definition groovy_truth (v : option string) : bool :=
  match v with Some s => negb (String.eqb s "") | None => false end.

(** [a ?: b] *)
Definition elvis (a b : option string) : option string :=
  if groovy_truth a then a else b.

(** [params.PR_NUMBER] is the value the build was started with, or the
    declared default. *)
Definition params (given : gmap string string) : gmap string string :=
  <["PR_NUMBER" := default "default" (given !! "PR_NUMBER")]> given.

(** A [null] spliced into a Groovy string reads "null". *)
Definition gstring (v : option string) : string := default "null" v.

(** [env] before the [environment] block: Jenkins exports the declared
    parameter of the build over the variable of that name in the process
    environment [env0]. *)
Definition exported (given env0 : gmap string string) : gmap string string :=
  match params given !! "PR_NUMBER" with
  | Some p => <["PR_NUMBER" := p]> env0
  | None => env0
  end.

Definition environment (given env0 : gmap string string) : gmap string string :=
  let env := exported given env0 in
  <["PATH" := "/opt/homebrew/bin:/usr/local/bin:/usr/bin:" +:+ gstring (env !! "PATH")]>
  (<["AWS_REGION" := "us-east-1"]>
  (<["AWS_CREDENTIALS_ID" := "aws-credentials"]>
  (<["PR_NUMBER" :=
       gstring (elvis (elvis (params given !! "PR_NUMBER") (env !! "PR_NUMBER"))
                      (Some "default"))]> env))).

(** *** Running the pipeline *)

Inductive failure := exit_status (n : Z) | checkout_error | credentials_error.
Inductive result := Skipped | Succeeded | Failed (why : failure).

Definition is_failed (r : result) : bool :=
  match r with Failed _ => true | _ => false end.

Section Agent.
(** The build agent: [exec d w p] runs a shell pipeline in directory [d],
    [is_file d w f] is the shell test [-f f] there, [checkout d w r]
    checks out the job's own repository ([None]) or the given branch,
    URL and credentials into [d], and [credentials w id] are the
    variables bound by the credentials [id], if they exist. *)
Context {World : Type}.
Variable exec : string → World → pipeline string → Z * string * World.
Variable is_file : string → World → string → bool.
Variable checkout : string → World → option (string * string * string) → bool * World.
Variable credentials : World → string → option (gmap string string).

Fixpoint run_step (env : gmap string string) (d : string) (w : World) (s : step)
  : option failure * World :=
  match s with
  | jecho _ => (None, w)
  | checkout_scm =>
      let '(ok, w') := checkout d w None in
      (if ok then None else Some checkout_error, w')
  | checkout_git branch url cred =>
      let '(ok, w') := checkout d w (Some (branch, url, cred)) in
      (if ok then None else Some checkout_error, w')
  | dir path body => run_step env path w body
  | sh script =>
      let '(f, _, w') := exec_stmt (exec d) (is_file d) script env w in
      (if bool_decide (status f = 0) then None else Some (exit_status (status f)), w')
  | withCredentials id body =>
      match credentials w (expand0 env id) with
      | Some bound => run_step (bound ∪ env) d w body
      | None => (Some credentials_error, w)
      end
  end.

(** The steps of a stage run in order, in the workspace; the first
    failure ends the stage. *)
Fixpoint run_steps (env : gmap string string) (w : World) (l : list step)
  : option failure * World :=
  match l with
  | [] => (None, w)
  | s :: l' =>
      match run_step env "." w s with
      | (None, w') => run_steps env w' l'
      | r => r
      end
  end.

Definition enabled (s : stage) (env : gmap string string) : bool :=
  match when s with Some c => c env | None => true end.

(** What the build records of a stage: its name, the world it was
    entered in and how it ended. *)
Record entry := Entry { stage_name : string; entered : World; outcome : result }.

(** Stages run in the order they are declared.  A stage whose [when] is
    false is skipped; a failed stage ends the run, so the stages after it
    are never entered. *)
Fixpoint run_stages (env : gmap string string) (w : World) (ss : list stage)
  : list entry :=
  match ss with
  | [] => []
  | s :: ss' =>
      if enabled s env then
        match run_steps env w (steps s) with
        | (None, w') => Entry (name s) w Succeeded :: run_stages env w' ss'
        | (Some why, _) => [Entry (name s) w (Failed why)]
        end
      else Entry (name s) w Skipped :: run_stages env w ss'
  end.

(** How a stage entered in world [w] ends. *)
Definition stage_outcome (env : gmap string string) (w : World) (s : stage) : result :=
  if enabled s env then
    match (run_steps env w (steps s)).1 with
    | None => Succeeded
    | Some why => Failed why
    end
  else Skipped.


Definition build_failed (tr : list entry) : bool :=
  existsb (λ e, is_failed (outcome e)) tr.

(** The [post] block: [always], then [failure] or [success]. *)
Definition post (env : gmap string string) (tr : list entry) : list string :=
  let pr := expand0 env [V "PR_NUMBER"] in
  ["Infrastructure pipeline completed for PR " +:+ pr]
  ++ (if build_failed tr
      then ["❌ Infrastructure deployment failed for PR " +:+ pr]
      else ["✅ Infrastructure deployment succeeded for PR " +:+ pr]).

(** A build started with the parameters [given] in the process
    environment [env0]. *)
Definition build (given env0 : gmap string string) (w : World)
  : list entry * list string :=
  let env := environment given env0 in
  let tr := run_stages env w stages in
  (tr, post env tr).

End Agent.

(** The value of [STACK_NAME] in the Deploy and Display stages. *)
Definition STACK_NAME {World : Type}
    (exec : World → pipeline string → Z * string * World)
    (is_file : World → string → bool)
    (env : gmap string string) (w : World) : option string :=
  (exec_stmt exec is_file stack_name_sh env w).1.2 !! "STACK_NAME".



End Jenkinsfile.

(** ** A build agent to run the pipeline on

    The world is the list of programs run so far.  Every checkout succeeds,
    the credentials [aws-credentials] exist and bind nothing, no file
    exists, and a shell pipeline fails with status 2 exactly when one of its
    commands has the argument [fails]. *)

Module Agent.
Import Sh.

Definition World := list string.

Definition exec (fails : string) (d : string) (w : World) (p : pipeline string)
  : Z * string * World :=
  (if existsb (λ c, bool_decide (fails ∈ args c)) p then 2 else 0,
   "", w ++ (prog <$> p)).

Definition is_file (d : string) (w : World) (f : string) : bool := false.

Definition checkout (d : string) (w : World) (r : option (string * string * string))
  : bool * World := (true, w ++ ["checkout"]).

Definition credentials (w : World) (id : string) : option (gmap string string) :=
  if String.eqb id "aws-credentials" then Some ∅ else None.
End Agent.

(** ** A build agent with the aws client installed

    As [Agent], except that every shell pipeline prints the path
    [/usr/local/bin/aws], which is the one file that exists, so that the
    scripts find the client; a pipeline still fails with status 2 exactly
    when one of its commands has the argument [fails]. *)

Module AwsAgent.
Import Sh.

Definition World := list string.

Definition exec (fails : string) (d : string) (w : World) (p : pipeline string)
  : Z * string * World :=
  (if existsb (λ c, bool_decide (fails ∈ args c)) p then 2 else 0,
   "/usr/local/bin/aws", w ++ (prog <$> p)).

Definition is_file (d : string) (w : World) (f : string) : bool :=
  String.eqb f "/usr/local/bin/aws".

Definition no_credentials (w : World) (id : string) : option (gmap string string) :=
  None.
End AwsAgent.

(** ** A record of the commands a run executes

    Any build agent can be made to keep a log: the world is paired with the
    list of shell pipelines executed so far, each with the directory it ran
    in and its exit status.  The interpreter is the same; only the agent
    writes the log. *)

Module Log.
Import Sh.

Record call := Call { call_dir : string; call_cmds : pipeline string; call_status : Z }.

Section Logged.
Context {World : Type}.
Variable exec : string → World → pipeline string → Z * string * World.
Variable is_file : string → World → string → bool.
Variable checkout : string → World → option (string * string * string) → bool * World.
Variable credentials : World → string → option (gmap string string).

Definition exec_logged (d : string) (wl : World * list call) (p : pipeline string)
  : Z * string * (World * list call) :=
  let '(st, out, w') := exec d wl.1 p in
  (st, out, (w', wl.2 ++ [Call d p st])).

Definition is_file_logged (d : string) (wl : World * list call) (f : string) : bool :=
  is_file d wl.1 f.

Definition checkout_logged (d : string) (wl : World * list call)
    (r : option (string * string * string)) : bool * (World * list call) :=
  let '(ok, w') := checkout d wl.1 r in (ok, (w', wl.2)).

Definition credentials_logged (wl : World * list call) (id : string)
  : option (gmap string string) :=
  credentials wl.1 id.

End Logged.

(** [npx cdk <sub> ...] *)
Definition is_cdk (sub : string) (c : cmd string) : bool :=
  bool_decide (take 2 (args c) = ["cdk"; sub]) && String.eqb (prog c) "npx".

Definition calls_cdk (sub : string) (k : call) : bool :=
  existsb (is_cdk sub) (call_cmds k).

(** [<aws> cloudformation describe-stacks --stack-name CDKToolkit ...] *)
Definition is_describe_toolkit (c : cmd string) : bool :=
  bool_decide (take 4 (args c)
               = ["cloudformation"; "describe-stacks"; "--stack-name"; "CDKToolkit"]).

Definition calls_describe_toolkit (k : call) : bool :=
  existsb is_describe_toolkit (call_cmds k).

End Log.

(** ** The VCL snippet of the CDN setup guide

    The guide gives two subroutines for the edge service: [vcl_recv], which
    serves the root path from [/index.html], sends every request to the
    bucket origin and passes it, and [vcl_fetch], which turns on ESI
    processing for HTML responses.  The operator [~] matches a regular
    expression anywhere in the subject; the pattern [text/html] has no
    metacharacter, so it matches exactly where it occurs as a substring. *)

Module Vcl.

Record backend_decl := {
  host : string; port : string; ssl : bool; ssl_sni_hostname : string }.

(** [backend s3_origin] for the bucket put in place of YOUR_BUCKET_NAME. *)
Definition s3_origin (bucket : string) : backend_decl :=
  {| host := bucket +:+ ".s3.us-east-1.amazonaws.com";
     port := "443";
     ssl := true;
     ssl_sni_hostname := bucket +:+ ".s3.us-east-1.amazonaws.com" |}.

Record req := { req_url : string; req_backend : option string }.

Inductive action := pass | lookup | deliver.

Definition vcl_recv (r : req) : req * action :=
  let r1 :=
    if String.eqb (req_url r) "/" || String.eqb (req_url r) ""
    then {| req_url := "/index.html"; req_backend := req_backend r |}
    else r in
  ({| req_url := req_url r1; req_backend := Some "s3_origin" |}, pass).

(** The backend response: its Content-Type header, if any, and the ESI
    flag. *)
Record beresp := { content_type : option string; do_esi : bool }.

(** [subject ~ "pattern"] for a pattern without metacharacters; an unset
    header matches nothing. *)
Fixpoint occurs (pattern subject : string) : bool :=
  String.prefix pattern subject
  || match subject with
     | EmptyString => false
     | String _ rest => occurs pattern rest
     end.

Definition matches (subject : option string) (pattern : string) : bool :=
  match subject with
  | Some s => occurs pattern s
  | None => false
  end.

Definition vcl_fetch (b : beresp) : beresp :=
  if matches (content_type b) "text/html"
  then {| content_type := content_type b; do_esi := true |}
  else b.

End Vcl.

(** * Properties of the stack *)

Module StackFacts.
Import Cdk.

Section Facts.
Variable path_join : list string → string.
Variable cwd : string.
Variable context : gmap string string.
Variable id : string.
Variable props : option StackProps.

Let stack : Tree := Lib.construct path_join cwd context id props.

(** The children of the stack, in the order the constructor adds them. *)
Lemma children_ids :
  (children stack).*1 =
    [ "ReviewsFragmentsBucket"; "MockApiLambda"; "MockApiGateway"; "ReviewsLambda";
      "HourlyReviewsUpdate"; "ReviewsBucketName"; "ReviewsBucketURL";
      "MockApiEndpoint"; "ReviewsLambdaArn"; "MainPageURL" ].
Proof. reflexivity. Qed.

Lemma children_NoDup : NoDup (children stack).*1.
Proof. rewrite children_ids. by apply (bool_decide_unpack _). Qed.

Lemma the_rule :
  rules stack =
    [ ("HourlyReviewsUpdate",
       ({| schedule := rate (Duration.minutes 5);
           rule_description :=
             "Triggers reviews Lambda every hour to update fragments" |},
        [LambdaFunction "ReviewsLambda"])) ].
Proof. reflexivity. Qed.

Lemma the_functions_ids : (functions stack).*1 = ["MockApiLambda"; "ReviewsLambda"].
Proof. reflexivity. Qed.

Lemma reviewsLambda_props :
  lookup_function stack "ReviewsLambda" = Some {|
    runtime := NODEJS_22_X;
    handler := "index.handler";
    functionName := "customer-reviews-lambda" +:+ Lib.prSuffix context;
    code := fromAsset (path_join [cwd; "customer-reviews-app/dist"]);
    environment := [ ("API_BASE_URL", url_of "MockApiGateway");
                     ("PRODUCT_IDS", Lit "product-a,product-b");
                     ("OUTPUT_BUCKET", bucketName_of "ReviewsFragmentsBucket") ];
    timeout := Duration.minutes 5;
    memorySize := 512;
    fn_description := "Fetches reviews and generates HTML fragments in S3" |}.
Proof. reflexivity. Qed.

Lemma mockApiLambda_props :
  lookup_function stack "MockApiLambda" = Some {|
    runtime := NODEJS_22_X;
    handler := "handler.handler";
    functionName := "mock-api-lambda" +:+ Lib.prSuffix context;
    code := fromAsset (path_join [cwd; "customer-reviews-app/dist/mock-api"]);
    environment := [];
    timeout := Duration.seconds 30;
    memorySize := 512;
    fn_description := "Mock API that returns fake product review data" |}.
Proof. reflexivity. Qed.

Lemma names_by_suffix :
  bucket_names stack
  = ["customer-reviews-fragments" +:+ Lib.prSuffix context +:+ "-" +:+ stack_account props]
  ∧ function_names stack
    = ["mock-api-lambda" +:+ Lib.prSuffix context;
       "customer-reviews-lambda" +:+ Lib.prSuffix context]
  ∧ restApi_names stack = ["CustomerReviewsMockAPI" +:+ Lib.prSuffix context].
Proof. repeat split. Qed.

End Facts.
End StackFacts.

(** ** The PR suffix *)

Module Suffix.

Lemma or_default_present (v : JS.value) (c d : string) :
  v = Some c → c ≠ "" → JS.or v d = c.
Proof.
  intros -> Hc. unfold JS.or, JS.truthy.
  destruct (String.eqb_spec c ""); [contradiction|reflexivity].
Qed.

Lemma or_default_falsy (v : JS.value) (d : string) :
  v = None ∨ v = Some "" → JS.or v d = d.
Proof. intros [-> | ->]; reflexivity. Qed.

Section Context.
Variable context : gmap string string.

Lemma prNumber_present (c : string) :
  context !! "prNumber" = Some c → c ≠ "" → Lib.prNumber context = c.
Proof. apply or_default_present. Qed.

Lemma prNumber_default :
  context !! "prNumber" = None ∨ context !! "prNumber" = Some ""
  ∨ context !! "prNumber" = Some "default" →
  Lib.prNumber context = "default".
Proof.
  intros [H | [H | H]]; unfold Lib.prNumber, Lib.tryGetContext.
  - apply or_default_falsy. by left.
  - apply or_default_falsy. by right.
  - by apply or_default_present.
Qed.

Lemma prSuffix_present (c : string) :
  context !! "prNumber" = Some c → c ≠ "" → c ≠ "default" →
  Lib.prSuffix context = "-pr-" +:+ c.
Proof.
  intros H Hne Hd. unfold Lib.prSuffix. rewrite (prNumber_present c H Hne).
  destruct (String.eqb_spec c "default"); [contradiction|reflexivity].
Qed.

Lemma prSuffix_default :
  context !! "prNumber" = None ∨ context !! "prNumber" = Some ""
  ∨ context !! "prNumber" = Some "default" →
  Lib.prSuffix context = "".
Proof. intros H. unfold Lib.prSuffix. by rewrite (prNumber_default H). Qed.

(** The entry point and the stack read the same context the same way. *)
Lemma prNumber_agree : Bin.prNumber context = Lib.prNumber context.
Proof. reflexivity. Qed.

Lemma stackName_present (c : string) :
  context !! "prNumber" = Some c → c ≠ "" → c ≠ "default" →
  Bin.stackName context = "CustomerReviewsIacStack-" +:+ c.
Proof.
  intros H Hne Hd. unfold Bin.stackName.
  rewrite prNumber_agree, (prNumber_present c H Hne).
  destruct (String.eqb_spec c "default"); [contradiction|reflexivity].
Qed.

Lemma stackName_default :
  context !! "prNumber" = None ∨ context !! "prNumber" = Some ""
  ∨ context !! "prNumber" = Some "default" →
  Bin.stackName context = "CustomerReviewsIacStack".
Proof.
  intros H. unfold Bin.stackName.
  by rewrite prNumber_agree, (prNumber_default H).
Qed.

End Context.
End Suffix.

(** ** The checks of the construct library *)

Module LibraryFacts.
Import Cdk Library.

Lemma all_chars_app (ok : ascii → bool) (a b : string) :
  all_chars ok (a +:+ b) = all_chars ok a && all_chars ok b.
Proof.
  induction a as [|x a IH]; [done|].
  change (ok x && all_chars ok (a +:+ b) = ok x && all_chars ok a && all_chars ok b).
  by rewrite IH, andb_assoc.
Qed.

Lemma length_app (a b : string) :
  String.length (a +:+ b) = (String.length a + String.length b)%nat.
Proof.
  induction a as [|x a IH]; [done|].
  change (S (String.length (a +:+ b)) = S (String.length a + String.length b)).
  by rewrite IH.
Qed.

Lemma stack_char_function_char (s : string) :
  all_chars stack_char s = true → all_chars function_char s = true.
Proof.
  induction s as [|x s IH]; [done|].
  change (stack_char x && all_chars stack_char s = true
          → (stack_char x || Ascii.eqb x "_") && all_chars function_char s = true).
  intros [Hx Hs]%andb_true_iff. by rewrite Hx, IH.
Qed.

(** [sanitizeId] touches the path separators only. *)
Lemma function_char_not_sep (x : ascii) :
  function_char x = true → Ascii.eqb x "/" = false.
Proof. destruct (Ascii.eqb_spec x "/") as [->|]; [by vm_compute|done]. Qed.

Lemma sanitizeId_app (a b : string) :
  sanitizeId (a +:+ b) = sanitizeId a +:+ sanitizeId b.
Proof.
  induction a as [|x a IH]; [done|].
  change (sanitizeId (String x (a +:+ b))
          = sanitizeId (String x a) +:+ sanitizeId b).
  cbn [sanitizeId]. rewrite IH. by destruct (Ascii.eqb x "/").
Qed.

Lemma sanitizeId_function_chars (s : string) :
  all_chars function_char s = true → sanitizeId s = s.
Proof.
  induction s as [|x s IH]; [done|].
  change (function_char x && all_chars function_char s = true
          → sanitizeId (String x s) = String x s).
  intros [Hx Hs]%andb_true_iff. cbn [sanitizeId].
  by rewrite (function_char_not_sep x Hx), IH.
Qed.

Lemma accepted_spec (c : string) :
  Lib.accepted c = true
  ↔ all_chars stack_char c = true ∧ (String.length c ≤ 37)%nat.
Proof. unfold Lib.accepted. by rewrite andb_true_iff, Nat.leb_le. Qed.

(** After a prefix of valid characters that leaves room for 37 more, an
    accepted PR number gives a valid function name. *)
Lemma valid_functionName_suffixed (prefix c : string) :
  valid_functionName prefix = true → (String.length prefix ≤ 27)%nat →
  Lib.accepted c = true → valid_functionName (prefix +:+ c) = true.
Proof.
  unfold valid_functionName.
  intros [_ Hp]%andb_true_iff Hlen [Hc Hl]%accepted_spec.
  rewrite all_chars_app, Hp, (stack_char_function_char c Hc), length_app.
  by rewrite (proj2 (Nat.leb_le _ _)) by lia.
Qed.

Lemma valid_functionName_too_long (n : string) :
  (64 < String.length n)%nat → valid_functionName n = false.
Proof.
  intros H. unfold valid_functionName.
  by rewrite (proj2 (Nat.leb_gt _ _)) by lia.
Qed.

Section Outcome.
Variable valid_bucketName existsSync : string → bool.
Variable path_join : list string → string.
Variable cwd : string.
Variable context : gmap string string.
Variable id : string.
Variable props : option StackProps.

(** The checks the constructor runs into, in order: the stack name, the
    bucket name when the account is concrete, then for the mock API Lambda
    and for the reviews Lambda the function name and the asset directory. *)
Lemma instantiate_checks :
  Lib.instantiate valid_bucketName existsSync path_join cwd context id props =
    let stack := Lib.construct path_join cwd context id props in
    let bucket := "customer-reviews-fragments" +:+ Lib.prSuffix context
                  +:+ "-" +:+ stack_account props in
    let mock := "mock-api-lambda" +:+ Lib.prSuffix context in
    let mock_dist := path_join [cwd; "customer-reviews-app/dist/mock-api"] in
    let reviews := "customer-reviews-lambda" +:+ Lib.prSuffix context in
    let dist := path_join [cwd; "customer-reviews-app/dist"] in
    if valid_stackName (sanitizeId id) then
      if account_resolved props && negb (valid_bucketName bucket)
      then inl (InvalidBucketName bucket)
      else if valid_functionName mock then
        if existsSync mock_dist then
          if valid_functionName reviews then
            if existsSync dist then
              inr {| inst_id := sanitizeId id;
                     inst_declared := stack;
                     inst_provided := [AUTO_DELETE_OBJECTS_PROVIDER];
                     inst_public_read := ["ReviewsFragmentsBucket"] |}
            else inl (AssetNotFound dist)
          else inl (InvalidFunctionName reviews)
        else inl (AssetNotFound mock_dist)
      else inl (InvalidFunctionName mock)
    else inl (InvalidStackName (sanitizeId id)).
Proof.
  unfold Lib.instantiate, instantiate. cbn zeta.
  destruct (valid_stackName (sanitizeId id)); [|done].
  set (bucket := "customer-reviews-fragments" +:+ Lib.prSuffix context
                 +:+ "-" +:+ stack_account props).
  set (mock := "mock-api-lambda" +:+ Lib.prSuffix context).
  set (mock_dist := path_join [cwd; "customer-reviews-app/dist/mock-api"]).
  set (reviews := "customer-reviews-lambda" +:+ Lib.prSuffix context).
  set (dist := path_join [cwd; "customer-reviews-app/dist"]).
  assert (first_error valid_bucketName existsSync (account_resolved props)
            (children (Lib.construct path_join cwd context id props))
          = match (if account_resolved props && negb (valid_bucketName bucket)
                   then Some (InvalidBucketName bucket) else None) with
            | Some e => Some e
            | None =>
                match (if valid_functionName mock
                       then if existsSync mock_dist
                            then None else Some (AssetNotFound mock_dist)
                       else Some (InvalidFunctionName mock)) with
                | Some e => Some e
                | None =>
                    match (if valid_functionName reviews
                           then if existsSync dist
                                then None else Some (AssetNotFound dist)
                           else Some (InvalidFunctionName reviews)) with
                    | Some e => Some e
                    | None => None
                    end
                end
            end) as ->.
  { reflexivity. }
  destruct (account_resolved props && _); [done|].
  destruct (valid_functionName mock); [|done].
  destruct (existsSync mock_dist); [|done].
  destruct (valid_functionName reviews); [|done].
  by destruct (existsSync dist).
Qed.

(** A stack that was constructed holds the constructor's declarations, one
    provider and one publicly readable bucket. *)
Lemma instantiate_inr (stack : Instance) :
  Lib.instantiate valid_bucketName existsSync path_join cwd context id props
  = inr stack →
  stack = {| inst_id := sanitizeId id;
             inst_declared := Lib.construct path_join cwd context id props;
             inst_provided := [AUTO_DELETE_OBJECTS_PROVIDER];
             inst_public_read := ["ReviewsFragmentsBucket"] |}.
Proof.
  rewrite instantiate_checks. cbn zeta.
  repeat (match goal with |- context [if ?b then _ else _] => destruct b end;
          try discriminate).
  by intros [= <-].
Qed.

(** A missing asset directory makes the constructor throw. *)
Lemma instantiate_missing_asset :
  existsSync (path_join [cwd; "customer-reviews-app/dist/mock-api"]) = false
  ∨ existsSync (path_join [cwd; "customer-reviews-app/dist"]) = false →
  ∃ e, Lib.instantiate valid_bucketName existsSync path_join cwd context id props
       = inl e.
Proof.
  intros H. rewrite instantiate_checks. cbn zeta.
  destruct (valid_stackName _); [|by eexists].
  destruct (account_resolved props && _); [by eexists|].
  destruct (valid_functionName _); [|by eexists].
  destruct (existsSync (path_join [cwd; "customer-reviews-app/dist/mock-api"]))
    eqn:Hm; [|by eexists].
  destruct (valid_functionName _); [|by eexists].
  destruct H as [H|H]; [done|]. rewrite H. by eexists.
Qed.

End Outcome.

(** The names the constructor builds from an effective PR number. *)
Lemma suffixed_names_valid (context : gmap string string) :
  Lib.accepted (Lib.prNumber context) = true →
  valid_functionName ("mock-api-lambda" +:+ Lib.prSuffix context) = true
  ∧ valid_functionName ("customer-reviews-lambda" +:+ Lib.prSuffix context) = true
  ∧ sanitizeId (Bin.stackName context) = Bin.stackName context
  ∧ valid_stackName (Bin.stackName context) = true.
Proof.
  intros Hacc. unfold Lib.prSuffix, Bin.stackName.
  change (Bin.prNumber context) with (Lib.prNumber context).
  destruct (String.eqb_spec (Lib.prNumber context) "default") as [->|Hd]; cbn;
    [done|].
  split_and!.
  - apply (valid_functionName_suffixed "mock-api-lambda-pr-"); [done|cbn; lia|done].
  - apply (valid_functionName_suffixed "customer-reviews-lambda-pr-");
      [done|cbn; lia|done].
  - apply accepted_spec in Hacc as [Hc _].
    apply sanitizeId_function_chars. rewrite all_chars_app.
    by rewrite (stack_char_function_char _ Hc).
  - apply accepted_spec in Hacc as [Hc Hl]. unfold valid_stackName.
    rewrite length_app, (proj2 (Nat.leb_le _ _)) by (cbn; lia).
    change (matches_stackName ("CustomerReviewsIacStack-" +:+ Lib.prNumber context))
      with (all_chars stack_char ("ustomerReviewsIacStack-" +:+ Lib.prNumber context)).
    by rewrite all_chars_app, Hc.
Qed.

Lemma suffixed_names_invalid (context : gmap string string) :
  Lib.accepted (Lib.prNumber context) = false →
  valid_stackName (sanitizeId (Bin.stackName context)) = false
  ∨ valid_functionName ("mock-api-lambda" +:+ Lib.prSuffix context) = false
  ∨ valid_functionName ("customer-reviews-lambda" +:+ Lib.prSuffix context) = false.
Proof.
  intros Hacc. unfold Lib.prSuffix, Bin.stackName.
  change (Bin.prNumber context) with (Lib.prNumber context).
  destruct (String.eqb_spec (Lib.prNumber context) "default") as [Heq|Hd]; cbn.
  { by rewrite Heq in Hacc. }
  unfold Lib.accepted in Hacc. apply andb_false_iff in Hacc as [Hc|Hl].
  - destruct (all_chars function_char (Lib.prNumber context)) eqn:Hfc.
    + left. rewrite sanitizeId_app, (sanitizeId_function_chars _ Hfc).
      unfold valid_stackName.
      change (matches_stackName (sanitizeId "CustomerReviewsIacStack-"
                                 +:+ Lib.prNumber context))
        with (all_chars stack_char
                ("ustomerReviewsIacStack-" +:+ Lib.prNumber context)).
      by rewrite all_chars_app, Hc, !andb_false_r.
    + right. left. unfold valid_functionName.
      change ("mock-api-lambda" +:+ "-pr-" +:+ Lib.prNumber context)
        with ("mock-api-lambda-pr-" +:+ Lib.prNumber context).
      by rewrite all_chars_app, Hfc, !andb_false_r.
  - right. right. apply valid_functionName_too_long.
    change ("customer-reviews-lambda" +:+ "-pr-" +:+ Lib.prNumber context)
      with ("customer-reviews-lambda-pr-" +:+ Lib.prNumber context).
    rewrite length_app. apply Nat.leb_gt in Hl. cbn. lia.
Qed.

(** The constructor succeeds for an accepted PR number, a valid stack id,
    a valid bucket name where the account is concrete, and asset
    directories that exist. *)
Lemma instantiate_succeeds (valid_bucketName existsSync : string → bool)
    (path_join : list string → string) (cwd : string)
    (context : gmap string string) (id : string) (props : option StackProps) :
  Lib.accepted (Lib.prNumber context) = true →
  valid_stackName (sanitizeId id) = true →
  (account_resolved props = true →
   valid_bucketName ("customer-reviews-fragments" +:+ Lib.prSuffix context
                     +:+ "-" +:+ stack_account props) = true) →
  existsSync (path_join [cwd; "customer-reviews-app/dist/mock-api"]) = true →
  existsSync (path_join [cwd; "customer-reviews-app/dist"]) = true →
  Lib.instantiate valid_bucketName existsSync path_join cwd context id props
  = inr {| inst_id := sanitizeId id;
           inst_declared := Lib.construct path_join cwd context id props;
           inst_provided := [AUTO_DELETE_OBJECTS_PROVIDER];
           inst_public_read := ["ReviewsFragmentsBucket"] |}.
Proof.
  intros Hacc Hid Hb Hmd Hd.
  destruct (suffixed_names_valid context Hacc) as (Hm & Hr & _).
  rewrite instantiate_checks. cbn zeta. rewrite Hid, Hm, Hr, Hmd, Hd.
  destruct (account_resolved props); [by rewrite Hb|done].
Qed.

(** The entry point succeeds exactly for the accepted PR numbers, the asset
    directories given. *)
Lemma main_succeeds (path_join : list string → string) (cwd : string)
    (context : gmap string string) (valid_bucketName existsSync : string → bool) :
  Lib.accepted (Lib.prNumber context) = true →
  existsSync (path_join [cwd; "customer-reviews-app/dist/mock-api"]) = true →
  existsSync (path_join [cwd; "customer-reviews-app/dist"]) = true →
  Bin.main path_join cwd context valid_bucketName existsSync
  = inr {| inst_id := Bin.stackName context;
           inst_declared := Lib.construct path_join cwd context
                              (Bin.stackName context) (Some {| env := None |});
           inst_provided := [AUTO_DELETE_OBJECTS_PROVIDER];
           inst_public_read := ["ReviewsFragmentsBucket"] |}.
Proof.
  intros Hacc Hmd Hd.
  destruct (suffixed_names_valid context Hacc) as (_ & _ & Hid & Hs).
  unfold Bin.main.
  rewrite (instantiate_succeeds _ _ _ _ _ _ _ Hacc);
    [by rewrite Hid | by rewrite Hid | by intros [=] | done | done].
Qed.

Lemma main_throws (path_join : list string → string) (cwd : string)
    (context : gmap string string) (valid_bucketName existsSync : string → bool) :
  Lib.accepted (Lib.prNumber context) = false
  ∨ existsSync (path_join [cwd; "customer-reviews-app/dist/mock-api"]) = false
  ∨ existsSync (path_join [cwd; "customer-reviews-app/dist"]) = false →
  ∃ e, Bin.main path_join cwd context valid_bucketName existsSync = inl e.
Proof.
  intros [Hacc|Hmiss]; [|by apply instantiate_missing_asset].
  unfold Bin.main. rewrite instantiate_checks. cbn zeta.
  destruct (suffixed_names_invalid context Hacc) as [-> | [-> | ->]];
    [by eexists| |].
  - destruct (valid_stackName _); by eexists.
  - destruct (valid_stackName _); [|by eexists]. cbn.
    destruct (valid_functionName _); [|by eexists].
    destruct (existsSync _); by eexists.
Qed.

End LibraryFacts.

(** ** Claims about the stack *)

Module StackClaims.
Import Cdk.

(** X2. Of the context the constructor reads the key prNumber only: two
    contexts that agree on it give the same construct tree. *)
Theorem construct_reads_prNumber_only :
  ∀ (path_join : list string → string) (cwd : string)
    (context context' : gmap string string) (id : string) (props : option StackProps),
    context !! "prNumber" = context' !! "prNumber" →
    Lib.construct path_join cwd context id props
    = Lib.construct path_join cwd context' id props.
Proof.
  intros path_join cwd context context' id props H.
  unfold Lib.construct, Lib.CustomerReviewsIacStack.
  assert (Hs : Lib.prSuffix context = Lib.prSuffix context')
    by (unfold Lib.prSuffix, Lib.prNumber, Lib.tryGetContext; by rewrite H).
  by rewrite Hs.
Qed.

(** X2 at two contexts for PR 42, one of which carries a second key. *)
Lemma construct_reads_prNumber_only_witness :
  Lib.construct Node.join "/w" {["prNumber" := "42"]} "S" None
  = Lib.construct Node.join "/w" (<["owner" := "qa"]> {["prNumber" := "42"]}) "S" None.
Proof.
  apply (construct_reads_prNumber_only Node.join "/w" {["prNumber" := "42"]}
           (<["owner" := "qa"]> {["prNumber" := "42"]}) "S" None).
  reflexivity.
Defined.

(** C1. The rule named HourlyReviewsUpdate, which the code comments and
    the rule's own description call hourly, is declared with the rate of 5
    minutes for every context: 300 seconds between invocations where one
    hour is 3600. *)
Theorem hourlyRule_rate_is_five_minutes :
  ∀ (path_join : list string → string) (cwd : string)
    (context : gmap string string) (id : string) (props : option StackProps),
    (λ r, (r.1, schedule r.2.1, rule_description r.2.1))
      <$> rules (Lib.construct path_join cwd context id props)
    = [ ("HourlyReviewsUpdate", rate (Duration.minutes 5),
         "Triggers reviews Lambda every hour to update fragments") ]
    ∧ Duration.toSeconds (Duration.minutes 5) = 300
    ∧ Duration.toSeconds (Duration.hours 1) = 3600
    ∧ rate (Duration.minutes 5) ≠ rate (Duration.hours 1).
Proof. intros. repeat split; try reflexivity. discriminate. Qed.

(** C2, as amended.  Whenever the constructor succeeds, the constructs it
    names are exactly one bucket, exactly two Lambda functions (the mock API
    Lambda and the reviews Lambda), exactly one rule and exactly one REST
    API; the library adds the provider behind autoDeleteObjects, whose
    handler is a third Lambda function resource of the stack.  The
    constructor succeeds for an effective PR number (absent and empty
    counting as default) of at most 37 letters, digits and hyphens, given a
    valid stack id, a valid bucket name where the account is concrete, and
    the two directories of the application build; the entry point succeeds
    for exactly these PR numbers, the two directories given, and throws
    otherwise. *)
Theorem stack_resource_counts :
  ∀ (valid_bucketName existsSync : string → bool)
    (path_join : list string → string) (cwd : string)
    (context : gmap string string),
    let mock_dist := path_join [cwd; "customer-reviews-app/dist/mock-api"] in
    let dist := path_join [cwd; "customer-reviews-app/dist"] in
    (∀ (id : string) (props : option StackProps) (stack : Library.Instance),
       Lib.instantiate valid_bucketName existsSync path_join cwd context id props
       = inr stack →
       let declared := Library.inst_declared stack in
       (buckets declared).*1 = ["ReviewsFragmentsBucket"]
       ∧ (functions declared).*1 = ["MockApiLambda"; "ReviewsLambda"]
       ∧ (rules declared).*1 = ["HourlyReviewsUpdate"]
       ∧ (restApis declared).*1 = ["MockApiGateway"]
       ∧ length (buckets declared) = 1%nat
       ∧ length (functions declared) = 2%nat
       ∧ length (rules declared) = 1%nat
       ∧ length (restApis declared) = 1%nat
       ∧ Library.inst_provided stack = [Library.AUTO_DELETE_OBJECTS_PROVIDER]
       ∧ Library.lambda_function_resources stack
         = ["MockApiLambda"; "ReviewsLambda"; Library.AUTO_DELETE_OBJECTS_PROVIDER])
    ∧ (∀ (id : string) (props : option StackProps),
         Lib.accepted (Lib.prNumber context) = true →
         Library.valid_stackName (Library.sanitizeId id) = true →
         (Library.account_resolved props = true →
          valid_bucketName ("customer-reviews-fragments" +:+ Lib.prSuffix context
                            +:+ "-" +:+ stack_account props) = true) →
         existsSync mock_dist = true → existsSync dist = true →
         ∃ stack, Lib.instantiate valid_bucketName existsSync path_join cwd context
                    id props = inr stack)
    ∧ ((∃ stack, Bin.main path_join cwd context valid_bucketName existsSync
                 = inr stack)
       ↔ Lib.accepted (Lib.prNumber context) = true
         ∧ existsSync mock_dist = true ∧ existsSync dist = true)
    ∧ ((∃ e, Bin.main path_join cwd context valid_bucketName existsSync = inl e)
       ↔ Lib.accepted (Lib.prNumber context) = false
         ∨ existsSync mock_dist = false ∨ existsSync dist = false).
Proof.
  intros valid_bucketName existsSync path_join cwd context mock_dist dist.
  subst mock_dist dist.
  pose proof (LibraryFacts.main_succeeds path_join cwd context
                valid_bucketName existsSync) as Hok.
  pose proof (LibraryFacts.main_throws path_join cwd context
                valid_bucketName existsSync) as Hthrow.
  split_and!.
  - intros id props stack ->%LibraryFacts.instantiate_inr declared.
    subst declared. repeat split.
  - intros id props Hacc Hid Hb Hmd Hd. eexists.
    by apply LibraryFacts.instantiate_succeeds.
  - split.
    + intros [stack Hs].
      destruct (Lib.accepted _); [|destruct Hthrow as [e He]; [by left|congruence]].
      destruct (existsSync (path_join [cwd; "customer-reviews-app/dist/mock-api"]));
        [|destruct Hthrow as [e He]; [by right; left|congruence]].
      destruct (existsSync (path_join [cwd; "customer-reviews-app/dist"]));
        [done|destruct Hthrow as [e He]; [by right; right|congruence]].
    + intros (Hacc & Hmd & Hd). eexists. by apply Hok.
  - split; [|exact Hthrow].
    intros [e He].
    destruct (Lib.accepted _); [|by left].
    destruct (existsSync (path_join [cwd; "customer-reviews-app/dist/mock-api"]));
      [|by right; left].
    destruct (existsSync (path_join [cwd; "customer-reviews-app/dist"]));
      [|by right; right].
    rewrite Hok in He by done. discriminate He.
Qed.

(** The amended C2 at the entry point for PR 42, and for the PR number
    [pr 7], which the entry point rejects. *)
Lemma stack_resource_counts_witness :
  (∃ stack, Bin.main Node.join "/w" {["prNumber" := "42"]} (λ _, true) (λ _, true)
            = inr stack
            ∧ (functions (Library.inst_declared stack)).*1
              = ["MockApiLambda"; "ReviewsLambda"]
            ∧ Library.lambda_function_resources stack
              = ["MockApiLambda"; "ReviewsLambda";
                 "Custom::S3AutoDeleteObjectsCustomResourceProvider"])
  ∧ (∃ e, Bin.main Node.join "/w" {["prNumber" := "pr 7"]} (λ _, true) (λ _, true)
          = inl e).
Proof.
  split.
  - destruct (stack_resource_counts (λ _, true) (λ _, true) Node.join "/w"
                {["prNumber" := "42"]}) as (Hcounts & _ & Hmain & _).
    destruct (proj2 Hmain) as [stack Hstack]; [done|]. exists stack.
    destruct (Hcounts _ _ stack Hstack) as (_ & Hf & _ & _ & _ & _ & _ & _ & _ & Hl).
    done.
  - apply (stack_resource_counts (λ _, true) (λ _, true) Node.join "/w"
             {["prNumber" := "pr 7"]}).
    by left.
Defined.

(** C2 as stated fails: for the prNumber [pr 7] the entry point throws,
    also with both build directories in place, so there is no stack whose
    resources could be counted. *)
Lemma stack_resource_counts_rejected_prNumber :
  ¬ (∀ (valid_bucketName existsSync : string → bool)
       (path_join : list string → string) (cwd : string)
       (context : gmap string string),
       existsSync (path_join [cwd; "customer-reviews-app/dist/mock-api"]) = true →
       existsSync (path_join [cwd; "customer-reviews-app/dist"]) = true →
       ∃ stack, Bin.main path_join cwd context valid_bucketName existsSync
                = inr stack
         ∧ length (buckets (Library.inst_declared stack)) = 1%nat
         ∧ length (functions (Library.inst_declared stack)) = 2%nat
         ∧ length (rules (Library.inst_declared stack)) = 1%nat
         ∧ length (restApis (Library.inst_declared stack)) = 1%nat).
Proof.
  intros H.
  destruct (H (λ _, true) (λ _, true) Node.join "/w" {["prNumber" := "pr 7"]}
              eq_refl eq_refl) as (stack & Hs & _).
  discriminate Hs.
Qed.

(** C3. Both Lambda functions take their code from a directory of the
    application build, joined to the working directory: the reviews Lambda
    from customer-reviews-app/dist, the mock API Lambda from
    customer-reviews-app/dist/mock-api; no function of the stack carries
    handler source of its own. *)
Theorem lambda_code_is_build_artifact :
  ∀ (path_join : list string → string) (cwd : string)
    (context : gmap string string) (id : string) (props : option StackProps),
    let stack := Lib.construct path_join cwd context id props in
    (λ f, (f.1, code f.2)) <$> functions stack
    = [ ("MockApiLambda",
         fromAsset (path_join [cwd; "customer-reviews-app/dist/mock-api"]));
        ("ReviewsLambda",
         fromAsset (path_join [cwd; "customer-reviews-app/dist"])) ]
    ∧ ∀ f source, f ∈ functions stack → code f.2 ≠ fromInline source.
Proof.
  intros. split; [reflexivity|].
  intros f source Hf.
  assert (Hc : (f.1, code f.2) ∈ (λ f, (f.1, code f.2)) <$> functions stack)
    by (apply list_elem_of_fmap; eauto).
  change ((λ f, (f.1, code f.2)) <$> functions stack)
    with [ ("MockApiLambda",
            fromAsset (path_join [cwd; "customer-reviews-app/dist/mock-api"]));
           ("ReviewsLambda",
            fromAsset (path_join [cwd; "customer-reviews-app/dist"])) ] in Hc.
  intros Heq. rewrite Heq in Hc.
  repeat (apply elem_of_cons in Hc as [Hc|Hc]; [discriminate Hc|]).
  by apply elem_of_nil in Hc.
Qed.

(** C5. The stack has one rule; its schedule is a rate, not a cron
    expression; its only target is the reviews Lambda, and the mock API
    Lambda is a target of no rule. *)
Theorem hourlyRule_targets_reviewsLambda_only :
  ∀ (path_join : list string → string) (cwd : string)
    (context : gmap string string) (id : string) (props : option StackProps),
    let stack := Lib.construct path_join cwd context id props in
    (∃ p, rules stack = [("HourlyReviewsUpdate", (p, [LambdaFunction "ReviewsLambda"]))]
          ∧ is_rate (schedule p) = true
          ∧ ∀ o, schedule p ≠ cron o)
    ∧ (functionName <$> lookup_function stack "ReviewsLambda")
      = Some ("customer-reviews-lambda" +:+ Lib.prSuffix context)
    ∧ (functionName <$> lookup_function stack "MockApiLambda")
      = Some ("mock-api-lambda" +:+ Lib.prSuffix context)
    ∧ ∀ r, r ∈ rules stack → LambdaFunction "MockApiLambda" ∉ r.2.2.
Proof.
  intros. split; [|split; [reflexivity|split; [reflexivity|]]].
  - eexists. split; [reflexivity|]. split; [reflexivity|]. discriminate.
  - intros r Hr. subst stack. rewrite StackFacts.the_rule in Hr.
    apply list_elem_of_singleton in Hr as ->. cbn.
    intros Hin. apply list_elem_of_singleton in Hin. discriminate Hin.
Qed.

(** C9. For every context the fragments bucket is public and disposable:
    public read access with the four block-public-access flags off, one
    CORS rule allowing GET from any origin with any header, removal policy
    DESTROY and automatic deletion of objects, so that deleting the stack
    deletes the bucket whatever it holds. *)
Theorem reviewsBucket_public_and_disposable :
  ∀ (path_join : list string → string) (cwd : string)
    (context : gmap string string) (id : string) (props : option StackProps),
    ∃ p, buckets (Lib.construct path_join cwd context id props)
           = [("ReviewsFragmentsBucket", p)]
      ∧ publicReadAccess p = true
      ∧ blockPublicAccess p
        = {| blockPublicAcls := false; blockPublicPolicy := false;
             ignorePublicAcls := false; restrictPublicBuckets := false |}
      ∧ cors p = [ {| allowedMethods := [GET];
                      allowedOrigins := ["*"];
                      allowedHeaders := ["*"] |} ]
      ∧ removalPolicy p = DESTROY
      ∧ autoDeleteObjects p = true
      ∧ ∀ objects, CloudFormation.delete_stack p objects = CloudFormation.Deleted.
Proof. intros. eexists. repeat split. Qed.

(** C8, as amended.  With a prNumber [c] that is present, not empty, not
    default and accepted by the library (at most 37 letters, digits and
    hyphens), the entry point, given the two directories of the application
    build, builds the stack whose id, bucket, functions and REST API carry
    the suffix built from [c], and so does every stack the constructor
    builds; with any other [c] that is present, not empty and not default
    the entry point throws; with prNumber absent, empty or default the
    entry point builds the stack whose names carry no suffix. *)
Theorem pr_suffix_naming :
  ∀ (valid_bucketName existsSync : string → bool)
    (path_join : list string → string) (cwd : string)
    (context : gmap string string),
    let mock_dist := path_join [cwd; "customer-reviews-app/dist/mock-api"] in
    let dist := path_join [cwd; "customer-reviews-app/dist"] in
    (∀ c, context !! "prNumber" = Some c → c ≠ "" → c ≠ "default" →
       (Lib.accepted c = true →
        existsSync mock_dist = true → existsSync dist = true →
        ∃ stack, Bin.main path_join cwd context valid_bucketName existsSync
                 = inr stack
          ∧ Library.inst_id stack = "CustomerReviewsIacStack-" +:+ c
          ∧ bucket_names (Library.inst_declared stack)
            = ["customer-reviews-fragments-pr-" +:+ c +:+ "-" +:+ Aws.ACCOUNT_ID]
          ∧ function_names (Library.inst_declared stack)
            = ["mock-api-lambda-pr-" +:+ c; "customer-reviews-lambda-pr-" +:+ c]
          ∧ restApi_names (Library.inst_declared stack)
            = ["CustomerReviewsMockAPI-pr-" +:+ c])
       ∧ (Lib.accepted c = false →
          ∃ e, Bin.main path_join cwd context valid_bucketName existsSync = inl e)
       ∧ (∀ id props stack,
            Lib.instantiate valid_bucketName existsSync path_join cwd context
              id props = inr stack →
            bucket_names (Library.inst_declared stack)
            = ["customer-reviews-fragments-pr-" +:+ c +:+ "-" +:+ stack_account props]
            ∧ function_names (Library.inst_declared stack)
              = ["mock-api-lambda-pr-" +:+ c; "customer-reviews-lambda-pr-" +:+ c]
            ∧ restApi_names (Library.inst_declared stack)
              = ["CustomerReviewsMockAPI-pr-" +:+ c]))
    ∧ (context !! "prNumber" = None ∨ context !! "prNumber" = Some ""
       ∨ context !! "prNumber" = Some "default" →
       (existsSync mock_dist = true → existsSync dist = true →
        ∃ stack, Bin.main path_join cwd context valid_bucketName existsSync
                 = inr stack
          ∧ Library.inst_id stack = "CustomerReviewsIacStack"
          ∧ bucket_names (Library.inst_declared stack)
            = ["customer-reviews-fragments-" +:+ Aws.ACCOUNT_ID]
          ∧ function_names (Library.inst_declared stack)
            = ["mock-api-lambda"; "customer-reviews-lambda"]
          ∧ restApi_names (Library.inst_declared stack) = ["CustomerReviewsMockAPI"])
       ∧ (∀ id props stack,
            Lib.instantiate valid_bucketName existsSync path_join cwd context
              id props = inr stack →
            bucket_names (Library.inst_declared stack)
            = ["customer-reviews-fragments-" +:+ stack_account props]
            ∧ function_names (Library.inst_declared stack)
              = ["mock-api-lambda"; "customer-reviews-lambda"]
            ∧ restApi_names (Library.inst_declared stack) = ["CustomerReviewsMockAPI"])).
Proof.
  intros valid_bucketName existsSync path_join cwd context mock_dist dist.
  subst mock_dist dist. split.
  - intros c H Hne Hd.
    pose proof (Suffix.prSuffix_present context c H Hne Hd) as Hs.
    pose proof (Suffix.stackName_present context c H Hne Hd) as Hn.
    pose proof (Suffix.prNumber_present context c H Hne) as Hp.
    split_and!.
    + intros Hacc Hmd Hdist. eexists. split.
      { apply LibraryFacts.main_succeeds; [by rewrite Hp|done..]. }
      cbn [Library.inst_id Library.inst_declared].
      destruct (StackFacts.names_by_suffix path_join cwd context
                  (Bin.stackName context) (Some {| env := None |}))
        as (-> & -> & ->).
      rewrite Hs, Hn. repeat split.
    + intros Hacc. apply LibraryFacts.main_throws. left. by rewrite Hp.
    + intros id props stack ->%LibraryFacts.instantiate_inr.
      cbn [Library.inst_declared].
      destruct (StackFacts.names_by_suffix path_join cwd context id props)
        as (-> & -> & ->).
      rewrite Hs. repeat split.
  - intros H.
    pose proof (Suffix.prSuffix_default context H) as Hs.
    pose proof (Suffix.stackName_default context H) as Hn.
    pose proof (Suffix.prNumber_default context H) as Hp.
    split.
    + intros Hmd Hdist. eexists. split.
      { apply LibraryFacts.main_succeeds; [by rewrite Hp|done..]. }
      cbn [Library.inst_id Library.inst_declared].
      destruct (StackFacts.names_by_suffix path_join cwd context
                  (Bin.stackName context) (Some {| env := None |}))
        as (-> & -> & ->).
      rewrite Hs, Hn. repeat split.
    + intros id props stack ->%LibraryFacts.instantiate_inr.
      cbn [Library.inst_declared].
      destruct (StackFacts.names_by_suffix path_join cwd context id props)
        as (-> & -> & ->).
      rewrite Hs. repeat split.
Qed.

(** The amended C8 at the entry point, for prNumber 42, for the rejected
    prNumber [4.2] and for an empty prNumber. *)
Lemma pr_suffix_naming_witness :
  (∃ stack, Bin.main Node.join "/w" {["prNumber" := "42"]} (λ _, true) (λ _, true)
            = inr stack
     ∧ Library.inst_id stack = "CustomerReviewsIacStack-42"
     ∧ bucket_names (Library.inst_declared stack)
       = ["customer-reviews-fragments-pr-42-${AWS::AccountId}"]
     ∧ function_names (Library.inst_declared stack)
       = ["mock-api-lambda-pr-42"; "customer-reviews-lambda-pr-42"]
     ∧ restApi_names (Library.inst_declared stack) = ["CustomerReviewsMockAPI-pr-42"])
  ∧ (∃ e, Bin.main Node.join "/w" {["prNumber" := "4.2"]} (λ _, true) (λ _, true)
          = inl e)
  ∧ (∃ stack, Bin.main Node.join "/w" {["prNumber" := ""]} (λ _, true) (λ _, true)
              = inr stack
       ∧ Library.inst_id stack = "CustomerReviewsIacStack"
       ∧ bucket_names (Library.inst_declared stack)
         = ["customer-reviews-fragments-${AWS::AccountId}"]
       ∧ function_names (Library.inst_declared stack)
         = ["mock-api-lambda"; "customer-reviews-lambda"]
       ∧ restApi_names (Library.inst_declared stack) = ["CustomerReviewsMockAPI"]).
Proof.
  split_and!.
  - apply (proj1 (pr_suffix_naming (λ _, true) (λ _, true) Node.join "/w"
                    {["prNumber" := "42"]}) "42");
      [reflexivity | discriminate | discriminate | reflexivity..].
  - apply (proj1 (pr_suffix_naming (λ _, true) (λ _, true) Node.join "/w"
                    {["prNumber" := "4.2"]}) "4.2");
      [reflexivity | discriminate | discriminate | reflexivity].
  - apply (proj2 (pr_suffix_naming (λ _, true) (λ _, true) Node.join "/w"
                    {["prNumber" := ""]}));
      [right; left; reflexivity | reflexivity..].
Defined.

(** C8 as stated fails: an empty prNumber is present and is not default,
    yet the names carry no suffix. *)
Lemma pr_suffix_naming_empty_prNumber :
  ¬ (∀ (path_join : list string → string) (cwd : string)
       (context : gmap string string) (id : string) (props : option StackProps)
       (c : string),
       context !! "prNumber" = Some c → c ≠ "default" →
       let stack := Lib.construct path_join cwd context id props in
       bucket_names stack
       = ["customer-reviews-fragments-pr-" +:+ c +:+ "-" +:+ stack_account props]
       ∧ function_names stack
         = ["mock-api-lambda-pr-" +:+ c; "customer-reviews-lambda-pr-" +:+ c]
       ∧ restApi_names stack = ["CustomerReviewsMockAPI-pr-" +:+ c]
       ∧ Bin.stack_id (Bin.app path_join cwd context) = "CustomerReviewsIacStack-" +:+ c).
Proof.
  intros H.
  assert (Hc : ({["prNumber" := ""]} : gmap string string) !! "prNumber" = Some "")
    by reflexivity.
  assert (Hd : "" ≠ "default") by discriminate.
  destruct (H Node.join "/w" _ "CustomerReviewsIacStack" None "" Hc Hd) as (Hb & _).
  discriminate Hb.
Qed.

End StackClaims.

(** * Properties of the pipeline *)

Module PipelineFacts.
Import Sh Jenkinsfile.

(** An element of a list without duplicates splits the list in one way. *)
Lemma NoDup_split_unique {A} (l1 l2 k1 k2 : list A) (x : A) :
  NoDup (l1 ++ x :: l2) → l1 ++ x :: l2 = k1 ++ x :: k2 → l1 = k1 ∧ l2 = k2.
Proof.
  revert k1. induction l1 as [|a l1 IH]; intros k1 Hnd Heq.
  - destruct k1 as [|b k1]; simplify_eq/=; [done|].
    apply NoDup_cons in Hnd as [Hx _]. destruct Hx.
    apply elem_of_app. right. left.
  - destruct k1 as [|b k1]; simplify_eq/=.
    + apply NoDup_cons in Hnd as [Hx _]. destruct Hx.
      apply elem_of_app. right. left.
    + apply NoDup_cons in Hnd as [_ Hnd].
      destruct (IH k1 Hnd) as [-> ->]; done.
Qed.

Section Runs.
Context {World : Type}.
Variable exec : string → World → pipeline string → Z * string * World.
Variable is_file : string → World → string → bool.
Variable checkout : string → World → option (string * string * string) → bool * World.
Variable credentials : World → string → option (gmap string string).
Variable env : gmap string string.

Local Abbreviation run_stages := (run_stages exec is_file checkout credentials env).
Local Abbreviation run_steps := (run_steps exec is_file checkout credentials env).
Local Abbreviation stage_outcome := (stage_outcome exec is_file checkout credentials env).

(** The recorded stages are an initial segment of the declared ones. *)
Lemma run_stages_prefix (ss : list stage) (w : World) :
  (stage_name <$> run_stages w ss) `prefix_of` (name <$> ss).
Proof.
  revert w. induction ss as [|s ss IH]; intros w; cbn; [done|].
  destruct (enabled s env).
  - destruct (run_steps w (steps s)) as [[why|] w']; cbn.
    + apply prefix_cons, prefix_nil.
    + apply prefix_cons, IH.
  - cbn. apply prefix_cons, IH.
Qed.

(** Every record is that of a declared stage, with the outcome of this
    stage in the world it was entered in. *)
Lemma run_stages_entry (ss : list stage) (w : World) (e : entry) :
  e ∈ run_stages w ss →
  ∃ s, s ∈ ss ∧ stage_name e = name s ∧ outcome e = stage_outcome (entered e) s.
Proof.
  revert w. induction ss as [|s ss IH]; intros w; cbn; [by intros ?%elem_of_nil|].
  unfold Jenkinsfile.stage_outcome.
  destruct (enabled s env) eqn:Hen.
  - destruct (run_steps w (steps s)) as [[why|] w'] eqn:Hrun.
    + intros ->%list_elem_of_singleton. exists s. cbn.
      rewrite Hen, Hrun. split_and!; [left|done|done].
    + intros [->|Hin]%elem_of_cons.
      * exists s. cbn. rewrite Hen, Hrun. split_and!; [left|done|done].
      * destruct (IH _ Hin) as (s' & ? & ? & ?). exists s'. split_and!; [by right|done|done].
  - intros [->|Hin]%elem_of_cons.
    + exists s. cbn. rewrite Hen. split_and!; [left|done|done].
    + destruct (IH _ Hin) as (s' & ? & ? & ?). exists s'. split_and!; [by right|done|done].
Qed.

(** Nothing is recorded after a failed stage. *)
Lemma run_stages_failed_last (ss : list stage) (w : World) (tr1 tr2 : list entry) (e : entry) :
  run_stages w ss = tr1 ++ e :: tr2 → is_failed (outcome e) = true → tr2 = [].
Proof.
  revert w tr1. induction ss as [|s ss IH]; intros w tr1; cbn.
  - by destruct tr1.
  - destruct (enabled s env).
    + destruct (run_steps w (steps s)) as [[why|] w'].
      * destruct tr1 as [|? [|]]; intros; simplify_eq/=; done.
      * destruct tr1 as [|e1 tr1]; intros Heq Hf; simplify_eq/=; eauto.
    + destruct tr1 as [|e1 tr1]; intros Heq Hf; simplify_eq/=; eauto.
Qed.

(** With distinct stage names, the stages recorded up to a failed one
    are exactly the declared stages up to it. *)
Lemma run_stages_stop (pre post : list stage) (s : stage) (w : World) (e : entry) :
  NoDup (name <$> pre ++ s :: post) →
  e ∈ run_stages w (pre ++ s :: post) →
  stage_name e = name s → is_failed (outcome e) = true →
  stage_name <$> run_stages w (pre ++ s :: post) = name <$> pre ++ [s].
Proof.
  intros Hnd Hin Hname Hf.
  destruct (list_elem_of_split _ _ Hin) as (tr1 & tr2 & Htr).
  pose proof (run_stages_failed_last _ _ _ _ _ Htr Hf) as ->.
  destruct (run_stages_prefix (pre ++ s :: post) w) as [k Hk].
  rewrite Htr in Hk |- *. rewrite !fmap_app in Hk |- *. cbn in Hk |- *.
  rewrite Hname in Hk |- *. rewrite fmap_app in Hnd. cbn in Hnd.
  rewrite <-(assoc_L (++)) in Hk. cbn in Hk.
  destruct (NoDup_split_unique _ _ _ _ _ Hnd Hk) as [<- _]. done.
Qed.





(** A failed build ends with its only failed stage. *)
Lemma run_stages_failure (ss : list stage) (w : World) :
  build_failed (run_stages w ss) = true →
  ∃ tr1 e why, run_stages w ss = tr1 ++ [e]
               ∧ outcome e = Failed why ∧ build_failed tr1 = false.
Proof.
  revert w. induction ss as [|s ss IH]; intros w; cbn; [done|].
  destruct (enabled s env).
  - destruct (Jenkinsfile.run_steps _ _ _ _ _ _ _) as [[why|] w']; cbn.
    + intros _. by exists [], (Entry (name s) w (Failed why)), why.
    + intros H. destruct (IH _ H) as (tr1 & e & why & -> & Ho & Hf).
      by exists (Entry (name s) w Succeeded :: tr1), e, why.
  - cbn. intros H. destruct (IH _ H) as (tr1 & e & why & -> & Ho & Hf).
    by exists (Entry (name s) w Skipped :: tr1), e, why.
Qed.

End Runs.

(** *** The declared stages *)

Lemma stages_names :
  name <$> stages =
    [ "Checkout Infrastructure Code"; "Checkout App Code"; "Setup Node.js";
      "Install Dependencies"; "Read PR Configuration"; "Bootstrap CDK";
      "Synthesize CDK"; "Deploy CDK Stack"; "Display Stack Outputs" ].
Proof. reflexivity. Qed.

Lemma stages_NoDup : NoDup (name <$> stages).
Proof. rewrite stages_names. by apply (bool_decide_unpack _). Qed.

Ltac stage_cases Hin Hn :=
  unfold stages in Hin;
  repeat (apply elem_of_cons in Hin as [->|Hin];
          [first [discriminate Hn | reflexivity]|]);
  by apply elem_of_nil in Hin.

Lemma bootstrap_by_name (s : stage) :
  s ∈ stages → name s = "Bootstrap CDK" → stages !! 5%nat = Some s.
Proof. intros Hin Hn. stage_cases Hin Hn. Qed.




Section Stages.
Context {World : Type}.
Variable exec : string → World → pipeline string → Z * string * World.
Variable is_file : string → World → string → bool.
Variable checkout : string → World → option (string * string * string) → bool * World.
Variable credentials : World → string → option (gmap string string).
Variable env : gmap string string.

Local Abbreviation stage_outcome := (stage_outcome exec is_file checkout credentials env).



End Stages.

(** *** The stack name of the Deploy and Display stages *)

Lemma append_empty_r (s : string) : s +:+ "" = s.
Proof.
  induction s as [|a s IH]; [done|].
  change (String a (s +:+ "") = String a s). by rewrite IH.
Qed.

Lemma STACK_NAME_fallback {World : Type}
    (exec : World → pipeline string → Z * string * World)
    (is_file : World → string → bool)
    (env : gmap string string) (w : World) (pr : string) :
  env !! "PR_NUMBER" = Some pr →
  is_file w ("config/pr-" +:+ pr +:+ "/config.json") = false →
  STACK_NAME exec is_file env w = Some ("CustomerReviewsIacStack-" +:+ pr).
Proof.
  intros Hpr Hfile. unfold STACK_NAME. cbn -[insert lookup].
  rewrite Hpr. rewrite lookup_insert_eq. rewrite lookup_insert_ne by done.
  rewrite Hpr. cbn -[insert lookup]. rewrite !append_empty_r.
  rewrite Hfile. rewrite !bool_decide_true by done.
  cbn -[insert lookup]. by rewrite lookup_insert_eq.
Qed.

(** *** The [environment] block *)

Lemma elvis_truth (a b : option string) :
  groovy_truth b = true → groovy_truth (elvis a b) = true.
Proof. intros Hb. unfold elvis. by destruct (groovy_truth a) eqn:Ha. Qed.

(** X3. Whatever the parameters and the process environment of a build,
    the [environment] block sets PR_NUMBER, and never to the empty string. *)
Theorem environment_PR_NUMBER :
  ∀ (given env0 : gmap string string),
    ∃ pr, environment given env0 !! "PR_NUMBER" = Some pr ∧ pr ≠ "".
Proof.
  intros given env0. unfold environment. cbn zeta.
  do 3 (rewrite lookup_insert_ne by done).
  rewrite lookup_insert_eq. eexists. split; [reflexivity|].
  pose proof (elvis_truth (elvis (params given !! "PR_NUMBER")
                             (exported given env0 !! "PR_NUMBER"))
                (Some "default") eq_refl) as Ht.
  destruct (elvis _ (Some "default")) as [pr|]; [|done].
  cbn in *. by destruct (String.eqb_spec pr "").
Qed.

(** A build started without parameters, in an environment without
    PR_NUMBER, runs with PR_NUMBER default. *)
Lemma environment_PR_NUMBER_default (env0 : gmap string string) :
  env0 !! "PR_NUMBER" = None →
  environment ∅ env0 !! "PR_NUMBER" = Some "default".
Proof.
  intros H. unfold environment. cbn zeta.
  do 3 (rewrite lookup_insert_ne by done).
  by rewrite lookup_insert_eq.
Qed.

End PipelineFacts.

(** ** Claims about the pipeline *)

Module PipelineClaims.
Import Sh Jenkinsfile PipelineFacts.




(** C10 at the failing input.  With PR_NUMBER default and no
    configuration file, the Deploy and Display stages name the stack
    CustomerReviewsIacStack-default, while the entry point, given the
    prNumber default, builds the stack CustomerReviewsIacStack. *)
Theorem stack_name_fallback_at_default :
  ∀ (World : Type)
    (exec : World → pipeline string → Z * string * World)
    (is_file : World → string → bool)
    (env context : gmap string string) (w : World),
    env !! "PR_NUMBER" = Some "default" →
    context !! "prNumber" = Some "default" →
    is_file w "config/pr-default/config.json" = false →
    STACK_NAME exec is_file env w = Some "CustomerReviewsIacStack-default"
    ∧ Bin.stackName context = "CustomerReviewsIacStack"
    ∧ STACK_NAME exec is_file env w ≠ Some (Bin.stackName context).
Proof.
  intros World exec is_file env context w Hpr Hctx Hfile.
  pose proof (STACK_NAME_fallback exec is_file env w "default" Hpr Hfile) as Hs.
  assert (Hn : Bin.stackName context = "CustomerReviewsIacStack")
    by (apply Suffix.stackName_default; auto).
  split_and!; [exact Hs|exact Hn|]. rewrite Hs, Hn. discriminate.
Qed.

(** The failing input of C10 in a build started without parameters. *)
Lemma stack_name_fallback_at_default_witness :
  STACK_NAME (Agent.exec "none" ".") (Agent.is_file ".") (environment ∅ ∅) []
  = Some "CustomerReviewsIacStack-default"
  ∧ Bin.stackName {["prNumber" := "default"]} = "CustomerReviewsIacStack"
  ∧ STACK_NAME (Agent.exec "none" ".") (Agent.is_file ".") (environment ∅ ∅) []
    ≠ Some (Bin.stackName {["prNumber" := "default"]}).
Proof.
  apply (stack_name_fallback_at_default Agent.World); reflexivity.
Defined.

(** X1. Off the default the fallback is right: when PR_NUMBER is neither
    empty nor default and there is no configuration file, the stack name of
    the Deploy and Display stages is the id the entry point gives the stack
    for the same prNumber. *)
Theorem stack_name_fallback_agrees :
  ∀ (World : Type)
    (exec : World → pipeline string → Z * string * World)
    (is_file : World → string → bool)
    (env context : gmap string string) (w : World) (pr : string),
    env !! "PR_NUMBER" = Some pr → context !! "prNumber" = Some pr →
    pr ≠ "" → pr ≠ "default" →
    is_file w ("config/pr-" +:+ pr +:+ "/config.json") = false →
    STACK_NAME exec is_file env w = Some (Bin.stackName context).
Proof.
  intros World exec is_file env context w pr Hpr Hctx Hne Hd Hfile.
  rewrite (STACK_NAME_fallback _ _ _ _ pr Hpr Hfile).
  by rewrite (Suffix.stackName_present context pr Hctx Hne Hd).
Qed.

(** X1 in a build for PR 42. *)
Lemma stack_name_fallback_agrees_witness :
  STACK_NAME (Agent.exec "none" ".") (Agent.is_file ".")
    (environment {["PR_NUMBER" := "42"]} ∅) []
  = Some (Bin.stackName {["prNumber" := "42"]}).
Proof.
  apply (stack_name_fallback_agrees Agent.World _ _ _ _ _ "42");
    [reflexivity | reflexivity | discriminate | discriminate | reflexivity].
Defined.

End PipelineClaims.

(** * Further properties of the stack *)

Module StackExtras.
Import Cdk.

(** Strings with a common tail. *)
Lemma list_ascii_of_string_app (a b : string) :
  String.list_ascii_of_string (a +:+ b) = String.list_ascii_of_string a ++ String.list_ascii_of_string b.
Proof.
  induction a as [|x a IH]; [done|].
  change (x :: String.list_ascii_of_string (a +:+ b)
          = x :: (String.list_ascii_of_string a ++ String.list_ascii_of_string b)).
  by rewrite IH.
Qed.

Lemma append_inj_r (a b s : string) : a +:+ s = b +:+ s → a = b.
Proof.
  intros H. apply (f_equal String.list_ascii_of_string) in H.
  rewrite !list_ascii_of_string_app in H. apply app_inv_tail in H.
  apply (f_equal String.string_of_list_ascii) in H.
  by rewrite !String.string_of_list_ascii_of_string in H.
Qed.

(** The suffix and the stack id as functions of the effective PR number. *)
Lemma prSuffix_inj (context context' : gmap string string) :
  Lib.prSuffix context = Lib.prSuffix context' →
  Lib.prNumber context = Lib.prNumber context'.
Proof.
  unfold Lib.prSuffix.
  destruct (String.eqb_spec (Lib.prNumber context) "default") as [->|],
           (String.eqb_spec (Lib.prNumber context') "default") as [->|]; cbn;
    [done|intros H; unfold String.append in H; discriminate H..|].
  apply (inj (String.app "-pr-")).
Qed.

Lemma stackName_inj (context context' : gmap string string) :
  Bin.stackName context = Bin.stackName context' →
  Lib.prNumber context = Lib.prNumber context'.
Proof.
  unfold Bin.stackName.
  change (Bin.prNumber context) with (Lib.prNumber context).
  change (Bin.prNumber context') with (Lib.prNumber context').
  destruct (String.eqb_spec (Lib.prNumber context) "default") as [->|],
           (String.eqb_spec (Lib.prNumber context') "default") as [->|]; cbn;
    [done|intros H; unfold String.append in H; discriminate H..|].
  apply (inj (String.app "CustomerReviewsIacStack-")).
Qed.


(** X5. Deployments for different PR numbers do not collide.  When the
    effective PR numbers of two contexts differ (an absent or empty prNumber
    counting as default), the two stacks, built for the same account, share
    no bucket name, no Lambda function name and no REST API name, and the
    entry point gives them different stack ids. *)
Theorem pr_deployments_do_not_collide :
  ∀ (path_join : list string → string) (cwd : string)
    (context context' : gmap string string) (id id' : string)
    (props : option StackProps),
    Lib.prNumber context ≠ Lib.prNumber context' →
    let stack := Lib.construct path_join cwd context id props in
    let stack' := Lib.construct path_join cwd context' id' props in
    (∀ n, n ∈ bucket_names stack → ¬ (n ∈ bucket_names stack'))
    ∧ (∀ n, n ∈ function_names stack → ¬ (n ∈ function_names stack'))
    ∧ (∀ n, n ∈ restApi_names stack → ¬ (n ∈ restApi_names stack'))
    ∧ Bin.stack_id (Bin.app path_join cwd context)
      ≠ Bin.stack_id (Bin.app path_join cwd context').
Proof.
  intros path_join cwd context context' id id' props Hne stack stack'.
  subst stack stack'.
  destruct (StackFacts.names_by_suffix path_join cwd context id props)
    as (-> & -> & ->).
  destruct (StackFacts.names_by_suffix path_join cwd context' id' props)
    as (-> & -> & ->).
  assert (Hs : Lib.prSuffix context ≠ Lib.prSuffix context')
    by (intros ?; by apply Hne, prSuffix_inj).
  split_and!.
  - intros n ->%list_elem_of_singleton Hin%list_elem_of_singleton.
    apply (inj (String.app "customer-reviews-fragments")) in Hin.
    by apply append_inj_r in Hin.
  - intros n [->|[->|[]%elem_of_nil]%elem_of_cons]%elem_of_cons
             [Hin|[Hin|[]%elem_of_nil]%elem_of_cons]%elem_of_cons.
    + by apply (inj (String.app "mock-api-lambda")) in Hin.
    + unfold String.append in Hin. discriminate Hin.
    + unfold String.append in Hin. discriminate Hin.
    + by apply (inj (String.app "customer-reviews-lambda")) in Hin.
  - intros n ->%list_elem_of_singleton Hin%list_elem_of_singleton.
    by apply (inj (String.app "CustomerReviewsMockAPI")) in Hin.
  - unfold Bin.app, Bin.stack_id. intros ?. by apply Hne, stackName_inj.
Qed.

(** X5 for PR 42 and the default deployment. *)
Lemma pr_deployments_do_not_collide_witness :
  let stack := Lib.construct Node.join "/w" {["prNumber" := "42"]} "A" None in
  let stack' := Lib.construct Node.join "/w" ∅ "B" None in
  (∀ n, n ∈ bucket_names stack → ¬ (n ∈ bucket_names stack'))
  ∧ (∀ n, n ∈ function_names stack → ¬ (n ∈ function_names stack'))
  ∧ (∀ n, n ∈ restApi_names stack → ¬ (n ∈ restApi_names stack'))
  ∧ Bin.stack_id (Bin.app Node.join "/w" {["prNumber" := "42"]})
    ≠ Bin.stack_id (Bin.app Node.join "/w" ∅).
Proof.
  apply (pr_deployments_do_not_collide Node.join "/w" {["prNumber" := "42"]} ∅ "A" "B" None).
  discriminate.
Defined.

End StackExtras.

(** * Further properties of the pipeline *)

Module PipelineExtras.
Import Sh Jenkinsfile PipelineFacts.

(** ** How a build ends *)



(** ** The Deploy stage *)

Lemma deploy_by_name (s : stage) :
  s ∈ stages → name s = "Deploy CDK Stack" → stages !! 7%nat = Some s.
Proof. intros Hin Hn. stage_cases Hin Hn. Qed.

Lemma display_by_name (s : stage) :
  s ∈ stages → name s = "Display Stack Outputs" → stages !! 8%nat = Some s.
Proof. intros Hin Hn. stage_cases Hin Hn. Qed.

Section Scripts.
Context {World : Type}.
Variable exec : string → World → pipeline string → Z * string * World.
Variable is_file : string → World → string → bool.

Lemma exec_stmt_seq (a b : stmt) (vs : vars) (w : World) :
  exec_stmt (exec ".") (is_file ".") (seq a b) vs w =
    match exec_stmt (exec ".") (is_file ".") a vs w with
    | (Next, vs1, w1) => exec_stmt (exec ".") (is_file ".") b vs1 w1
    | r => r
    end.
Proof. reflexivity. Qed.

(** The stack-name fragment goes on, or leaves with a nonzero status. *)
Lemma stack_name_sh_flow (vs : vars) (w : World) :
  ∃ f vs' w', exec_stmt (exec ".") (is_file ".") stack_name_sh vs w = (f, vs', w')
    ∧ (f = Next ∨ ∃ n, f = Exit n ∧ n ≠ 0).
Proof.
  unfold stack_name_sh. cbn -[insert lookup].
  rewrite !bool_decide_true by done. cbn -[insert lookup].
  destruct (is_file "." w _).
  - unfold run_subst. cbn -[insert lookup].
    destruct (exec "." w _) as [[st out] w1]. cbn -[insert lookup].
    case_bool_decide; cbn -[insert lookup]; do 3 eexists; (split; [reflexivity|]); eauto.
  - rewrite ?bool_decide_true by done. cbn -[insert lookup].
    do 3 eexists; (split; [reflexivity|]); eauto.
Qed.

(** Without a configuration file the fragment sets STACK_NAME from
    PR_NUMBER and runs nothing. *)
Lemma stack_name_sh_fallback (vs : vars) (w : World) (pr : string) :
  vs !! "PR_NUMBER" = Some pr →
  is_file "." w ("config/pr-" +:+ pr +:+ "/config.json") = false →
  exec_stmt (exec ".") (is_file ".") stack_name_sh vs w
  = (Next,
     <["STACK_NAME" := "CustomerReviewsIacStack-" +:+ pr]>
       (<["CONFIG_FILE" := "config/pr-" +:+ pr +:+ "/config.json"]> vs),
     w).
Proof.
  intros Hpr Hfile. unfold stack_name_sh. cbn -[insert lookup].
  rewrite Hpr. rewrite lookup_insert_eq. rewrite lookup_insert_ne by done.
  rewrite Hpr. cbn -[insert lookup]. rewrite !append_empty_r.
  rewrite Hfile. by rewrite !bool_decide_true by done.
Qed.

Lemma deploy_sh_fails (vs : vars) (w : World) :
  (∀ w p, existsb (Log.is_cdk "deploy") p = true → (exec "." w p).1.1 ≠ 0) →
  ∃ n vs' w', exec_stmt (exec ".") (is_file ".") deploy_sh vs w = (Exit n, vs', w')
    ∧ n ≠ 0.
Proof.
  intros Hfail. unfold deploy_sh, script. cbn [foldr]. rewrite exec_stmt_seq.
  destruct (stack_name_sh_flow vs w) as (f & vs1 & w1 & -> & [->|(n & -> & Hn)]).
  - cbn -[insert lookup].
    match goal with |- context [exec "." w1 ?p] =>
      pose proof (Hfail w1 p eq_refl) as Hst; destruct (exec "." w1 p) as [[st out] w2]
    end.
    cbn in Hst. cbn -[insert lookup]. rewrite bool_decide_false by done.
    cbn -[insert lookup]. by do 3 eexists.
  - by do 3 eexists.
Qed.

(** Without a configuration file the script of the Display stage ends with
    status 0 whatever the commands it runs return. *)
Lemma outputs_sh_succeeds (vs : vars) (w : World) (pr : string) :
  vs !! "PR_NUMBER" = Some pr →
  is_file "." w ("config/pr-" +:+ pr +:+ "/config.json") = false →
  ∃ vs' w', exec_stmt (exec ".") (is_file ".") outputs_sh vs w = (Next, vs', w').
Proof.
  intros Hpr Hfile. unfold outputs_sh, script. cbn [foldr]. rewrite exec_stmt_seq.
  rewrite (stack_name_sh_fallback vs w pr Hpr Hfile).
  cbn -[insert lookup]. unfold run_subst. cbn -[insert lookup].
  destruct (exec "." w _) as [[st out] w1]. cbn -[insert lookup].
  case_bool_decide; cbn -[insert lookup]; rewrite ?bool_decide_true by done;
    cbn -[insert lookup].
  all: destruct (is_file "." w1 _); cbn -[insert lookup]; [|by do 2 eexists].
  all: destruct (exec "." w1 _) as [[st2 out2] w2]; cbn -[insert lookup].
  all: case_bool_decide; cbn -[insert lookup]; by do 2 eexists.
Qed.

End Scripts.

Lemma environment_AWS_CREDENTIALS_ID (given env0 : gmap string string) :
  environment given env0 !! "AWS_CREDENTIALS_ID" = Some "aws-credentials".
Proof.
  unfold environment. cbn zeta. do 2 (rewrite lookup_insert_ne by done).
  by rewrite lookup_insert_eq.
Qed.

(** The last of the nine names is recorded last. *)
Lemma display_is_last {World : Type} (tr tr1 : list (@entry World)) (e e' : entry) :
  (stage_name <$> tr) `prefix_of` (name <$> stages) →
  tr = tr1 ++ [e'] → e ∈ tr → stage_name e = "Display Stack Outputs" → e = e'.
Proof.
  intros Hpre -> [He|He]%elem_of_app Hn; [|by apply list_elem_of_singleton in He].
  apply list_elem_of_lookup in He as [i Hi].
  assert (Hlt : (i < length tr1)%nat) by by eapply lookup_lt_Some.
  assert (Hi' : (stage_name <$> tr1 ++ [e']) !! i = Some "Display Stack Outputs").
  { rewrite list_lookup_fmap, lookup_app_l by done. by rewrite Hi, <-Hn. }
  pose proof (prefix_lookup_Some _ _ _ _ Hi' Hpre) as Hs.
  assert (H8 : (name <$> stages) !! 8%nat = Some "Display Stack Outputs") by done.
  pose proof (NoDup_lookup _ _ _ _ stages_NoDup Hs H8) as ->.
  apply prefix_length in Hpre. rewrite !length_fmap, length_app in Hpre.
  cbn in Hpre. lia.
Qed.

Section Stages.
Context {World : Type}.
Variable exec : string → World → pipeline string → Z * string * World.
Variable is_file : string → World → string → bool.
Variable checkout : string → World → option (string * string * string) → bool * World.
Variable credentials : World → string → option (gmap string string).
Variable env : gmap string string.

Lemma deploy_outcome (s : stage) (w : World) :
  stages !! 7%nat = Some s →
  (∀ w p, existsb (Log.is_cdk "deploy") p = true → (exec "." w p).1.1 ≠ 0) →
  ∃ why, stage_outcome exec is_file checkout credentials env w s = Failed why.
Proof.
  intros [= <-] Hfail. unfold stage_outcome. cbn -[deploy_sh exec_stmt].
  destruct (credentials w _) as [bound|]; [|by eexists].
  destruct (deploy_sh_fails exec is_file (bound ∪ env) w Hfail)
    as (n & vs' & w' & -> & Hn).
  cbn. rewrite bool_decide_false by done. by eexists.
Qed.

Lemma display_outcome (s : stage) (w : World) (id pr : string) (bound : gmap string string) :
  stages !! 8%nat = Some s →
  env !! "AWS_CREDENTIALS_ID" = Some id →
  credentials w id = Some bound →
  (bound ∪ env) !! "PR_NUMBER" = Some pr →
  is_file "." w ("config/pr-" +:+ pr +:+ "/config.json") = false →
  stage_outcome exec is_file checkout credentials env w s = Succeeded.
Proof.
  intros [= <-] Hid Hcred Hpr Hfile. unfold stage_outcome.
  cbn -[outputs_sh exec_stmt]. rewrite Hid. cbn -[outputs_sh exec_stmt].
  rewrite Hcred.
  destruct (outputs_sh_succeeds exec is_file (bound ∪ env) w pr Hpr Hfile)
    as (vs' & w' & ->).
  reflexivity.
Qed.

End Stages.

(** X7. On an agent where [npx cdk deploy] ends with a nonzero status, a
    build that enters the Deploy stage fails there: the stage is recorded as
    failed, the Display stage is not entered and the build counts as
    failed. *)
Theorem failed_deploy_fails_the_build :
  ∀ (World : Type)
    (exec : string → World → pipeline string → Z * string * World)
    (is_file : string → World → string → bool)
    (checkout : string → World → option (string * string * string) → bool * World)
    (credentials : World → string → option (gmap string string))
    (given env0 : gmap string string) (w : World) (e : entry),
    (∀ w p, existsb (Log.is_cdk "deploy") p = true → (exec "." w p).1.1 ≠ 0) →
    let tr := (build exec is_file checkout credentials given env0 w).1 in
    e ∈ tr → stage_name e = "Deploy CDK Stack" →
    (∃ why, outcome e = Failed why)
    ∧ ¬ ("Display Stack Outputs" ∈ stage_name <$> tr)
    ∧ build_failed tr = true.
Proof.
  intros World exec is_file checkout credentials given env0 w e Hfail tr He Hname.
  subst tr. unfold build in *. cbn [fst] in *.
  revert He. generalize (environment given env0). intros env He.
  destruct (run_stages_entry _ _ _ _ _ _ _ _ He) as (s & Hs & Hn & Ho).
  rewrite Hname in Hn. symmetry in Hn.
  pose proof (deploy_by_name s Hs Hn) as H7.
  destruct (deploy_outcome exec is_file checkout credentials env s (entered e) H7 Hfail)
    as [why Hw].
  rewrite Hw in Ho.
  assert (Hf : is_failed (outcome e) = true) by by rewrite Ho.
  split_and!; [by exists why| |].
  - assert (Hsplit : stages = take 7 stages ++ s :: drop 8 stages)
      by by injection H7 as <-.
    assert (Htr : stage_name <$> run_stages exec is_file checkout credentials env w stages
                  = name <$> take 7 stages ++ [s]).
    { rewrite Hsplit at 1.
      apply (run_stages_stop _ _ _ _ _ _ _ _ _ e).
      - rewrite <-Hsplit. apply stages_NoDup.
      - rewrite <-Hsplit. exact He.
      - by rewrite Hname.
      - exact Hf. }
    rewrite Htr, fmap_app. cbn. rewrite Hn.
    apply (bool_decide_unpack _). by vm_compute.
  - apply existsb_exists. exists e. split; [by apply list_elem_of_In|done].
Qed.

(** X8. When the credentials exist and there is no configuration file for
    the PR, the Display stage succeeds whatever the aws client does: a
    failing [describe-stacks] only prints a message.  The stage being the
    last one, the build then ends without a failed stage. *)
Theorem display_outputs_never_fails_the_build :
  ∀ (World : Type)
    (exec : string → World → pipeline string → Z * string * World)
    (is_file : string → World → string → bool)
    (checkout : string → World → option (string * string * string) → bool * World)
    (credentials : World → string → option (gmap string string))
    (given env0 bound : gmap string string) (w : World) (e : entry) (pr : string),
    let tr := (build exec is_file checkout credentials given env0 w).1 in
    e ∈ tr → stage_name e = "Display Stack Outputs" →
    credentials (entered e) "aws-credentials" = Some bound →
    (bound ∪ environment given env0) !! "PR_NUMBER" = Some pr →
    is_file "." (entered e) ("config/pr-" +:+ pr +:+ "/config.json") = false →
    outcome e = Succeeded ∧ build_failed tr = false.
Proof.
  intros World exec is_file checkout credentials given env0 bound w e pr tr
    He Hname Hcred Hpr Hfile.
  subst tr. unfold build in *. cbn [fst] in *.
  pose proof (environment_AWS_CREDENTIALS_ID given env0) as Hid.
  revert He Hpr Hid. generalize (environment given env0). intros env He Hpr Hid.
  destruct (run_stages_entry _ _ _ _ _ _ _ _ He) as (s & Hs & Hn & Ho).
  rewrite Hname in Hn. symmetry in Hn.
  pose proof (display_by_name s Hs Hn) as H8.
  rewrite (display_outcome exec is_file checkout credentials env s (entered e)
             "aws-credentials" pr bound H8 Hid Hcred Hpr Hfile) in Ho.
  split; [exact Ho|].
  destruct (build_failed _) eqn:Hf; [|done].
  destruct (run_stages_failure _ _ _ _ _ _ _ Hf) as (tr1 & e' & why & Htr & Ho' & _).
  assert (e = e') as <-; [|congruence].
  eapply display_is_last; [apply run_stages_prefix|exact Htr|exact He|exact Hname].
Qed.

(** The sample agents fail [cdk deploy] when told to fail on "deploy". *)
Lemma is_cdk_arg (sub : string) (c : cmd string) :
  Log.is_cdk sub c = true → sub ∈ args c.
Proof.
  unfold Log.is_cdk. intros [Ha _]%andb_true_iff. apply bool_decide_eq_true in Ha.
  destruct (args c) as [|a [|b l]]; simplify_eq/=. by right; left.
Qed.

Lemma Agent_fails_cdk (sub d : string) (w : Agent.World) (p : pipeline string) :
  existsb (Log.is_cdk sub) p = true → (Agent.exec sub d w p).1.1 ≠ 0.
Proof.
  intros (c & Hc & Hcdk)%existsb_exists. unfold Agent.exec. cbn.
  assert (existsb (λ c, bool_decide (sub ∈ args c)) p = true) as ->; [|done].
  apply existsb_exists. exists c. split; [done|].
  by apply bool_decide_eq_true, is_cdk_arg.
Qed.

(** X7 in a build for PR 42 on the agent where [cdk deploy] fails. *)
Lemma failed_deploy_fails_the_build_witness :
  let tr := (build (Agent.exec "deploy") Agent.is_file Agent.checkout
               Agent.credentials {["PR_NUMBER" := "42"]} ∅ []).1 in
  (λ e, (stage_name e, outcome e)) <$> drop 6 tr
  = [ ("Synthesize CDK", Succeeded); ("Deploy CDK Stack", Failed (exit_status 1)) ]
  ∧ ¬ ("Display Stack Outputs" ∈ stage_name <$> tr)
  ∧ build_failed tr = true.
Proof.
  intros tr. split; [by vm_compute|].
  destruct (tr !! 7%nat) as [e|] eqn:He; [|by vm_compute in He].
  assert (Hin : e ∈ tr) by by eapply list_elem_of_lookup_2.
  assert (He' := He). vm_compute in He'. injection He' as <-.
  destruct (failed_deploy_fails_the_build Agent.World (Agent.exec "deploy")
              Agent.is_file Agent.checkout Agent.credentials
              {["PR_NUMBER" := "42"]} ∅ [] _
              (Agent_fails_cdk "deploy" ".") Hin eq_refl) as (_ & Hd & Hf).
  split; [exact Hd|exact Hf].
Defined.

(** X8 in a build for PR 42 on the agent where [describe-stacks] fails. *)
Lemma display_outputs_never_fails_the_build_witness :
  let tr := (build (AwsAgent.exec "describe-stacks") AwsAgent.is_file Agent.checkout
               Agent.credentials {["PR_NUMBER" := "42"]} ∅ []).1 in
  (λ e, (stage_name e, outcome e)) <$> drop 8 tr
  = [ ("Display Stack Outputs", Succeeded) ]
  ∧ build_failed tr = false.
Proof.
  intros tr. split; [by vm_compute|].
  destruct (tr !! 8%nat) as [e|] eqn:He; [|by vm_compute in He].
  assert (Hin : e ∈ tr) by by eapply list_elem_of_lookup_2.
  assert (He' := He). vm_compute in He'. injection He' as <-.
  apply (display_outputs_never_fails_the_build AwsAgent.World
           (AwsAgent.exec "describe-stacks") AwsAgent.is_file Agent.checkout
           Agent.credentials {["PR_NUMBER" := "42"]} ∅ ∅ [] _ "42" Hin);
    [reflexivity|reflexivity|by vm_compute|reflexivity].
Defined.

(** ** The Bootstrap script *)

Ltac run_sh :=
  lazy beta iota zeta delta
    [exec_stmt test run_pipeline expand_pipeline expand_cmd expand_list expand
     expand_from run_subst Log.exec_logged Log.is_file_logged
     sub_try sub_or_echo prog args stdout_to stderr_null fst snd script foldr
     bootstrap_sh which_aws describe_toolkit caller_account
     lit lits lit0 lits0 fmap list_fmap option_fmap option_map app negb status].

Ltac find_call :=
  first [ by eexists 0%nat, _; split_and!; [lia|reflexivity|by vm_compute|done]
        | by eexists 1%nat, _; split_and!; [lia|reflexivity|by vm_compute|done]
        | by eexists 2%nat, _; split_and!; [lia|reflexivity|by vm_compute|done]
        | by eexists 3%nat, _; split_and!; [lia|reflexivity|by vm_compute|done] ].

Ltac each_call i Hi tac :=
  repeat (destruct i as [|i]; cbn in Hi; [injection Hi as <-; tac|]);
  try done.

(** X9. The Bootstrap script bootstraps only an account that needs it.  In
    the log of any run: a [cdk bootstrap] is preceded by a [describe-stacks]
    for CDKToolkit that returned a nonzero status, and the script ends with
    the status of that [cdk bootstrap]; when [describe-stacks] returned 0
    there is no [cdk bootstrap] and the script ends with status 0; and the
    script does not end with status 0 without having asked
    [describe-stacks]. *)
Theorem bootstrap_only_when_toolkit_missing :
  ∀ (World : Type)
    (exec : string → World → pipeline string → Z * string * World)
    (is_file : string → World → string → bool)
    (vs : gmap string string) (w : World),
    let r := exec_stmt (Log.exec_logged exec ".") (Log.is_file_logged is_file ".")
               bootstrap_sh vs (w, []) in
    let log := r.2.2 in
    (∀ i k, log !! i = Some k → Log.calls_cdk "bootstrap" k = true →
       (∃ j d, (j < i)%nat ∧ log !! j = Some d
               ∧ Log.calls_describe_toolkit d = true ∧ Log.call_status d ≠ 0)
       ∧ status r.1.1 = Log.call_status k)
    ∧ (∀ j d, log !! j = Some d → Log.calls_describe_toolkit d = true →
         Log.call_status d = 0 →
         status r.1.1 = 0
         ∧ ∀ i k, log !! i = Some k → Log.calls_cdk "bootstrap" k = false)
    ∧ (status r.1.1 = 0 →
       ∃ j d, log !! j = Some d ∧ Log.calls_describe_toolkit d = true).
Proof.
  intros World exec is_file vs w r log. subst log r. run_sh.
  rewrite ?bool_decide_true by done. run_sh.
  repeat
    (first
       [ match goal with
         | |- context [bool_decide (?x = 0)] =>
             is_var x; destruct (decide (x = 0)) as [->|];
             [repeat rewrite (bool_decide_true (0 = 0)) by done
             |repeat rewrite (bool_decide_false (x = 0)) by done]
         end
       | match goal with
         | |- context [is_file ?d ?w ?f] => is_var w; destruct (is_file d w f) eqn:?
         end
       | match goal with
         | |- context [String.eqb ?a ""] => destruct (String.eqb a "") eqn:?
         end
       | match goal with
         | |- context [exec ?d ?w ?p] =>
             is_var w; destruct (exec d w p) as [[? ?] ?] eqn:?
         end ];
     run_sh).
  all: split_and!;
    [ intros i k Hi Hk;
      each_call i Hi ltac:(first [ by vm_compute in Hk
                                 | split; [find_call|reflexivity] ])
    | intros j d Hj Hd Hz;
      each_call j Hj ltac:(first [ by vm_compute in Hd
                                 | done
                                 | split; [reflexivity|];
                                   intros i k Hi;
                                   each_call i Hi ltac:(by vm_compute) ])
    | intros Hst;
      first [ done
            | by eexists 0%nat, _; split; [reflexivity|by vm_compute]
            | by eexists 1%nat, _; split; [reflexivity|by vm_compute]
            | by eexists 2%nat, _; split; [reflexivity|by vm_compute] ] ].
Qed.

(** X9 on the agent with the aws client, where [describe-stacks] fails: the
    script asks [which], then [describe-stacks], then the account, then
    bootstraps. *)
Lemma bootstrap_only_when_toolkit_missing_witness :
  let r := exec_stmt (Log.exec_logged (AwsAgent.exec "describe-stacks") ".")
             (Log.is_file_logged AwsAgent.is_file ".")
             bootstrap_sh (environment ∅ ∅) ([], []) in
  (λ k, (prog <$> Log.call_cmds k, Log.call_status k)) <$> r.2.2
  = [ (["which"], 0); (["/usr/local/bin/aws"], 2);
      (["/usr/local/bin/aws"], 0); (["npx"], 0) ]
  ∧ (∃ j d, (j < 3)%nat ∧ r.2.2 !! j = Some d
            ∧ Log.calls_describe_toolkit d = true ∧ Log.call_status d ≠ 0)
  ∧ status r.1.1 = 0.
Proof.
  intros r. split; [by vm_compute|].
  destruct (r.2.2 !! 3%nat) as [k|] eqn:Hk; [|by vm_compute in Hk].
  destruct (bootstrap_only_when_toolkit_missing AwsAgent.World
              (AwsAgent.exec "describe-stacks") AwsAgent.is_file
              (environment ∅ ∅) []) as (Hboot & _ & _).
  destruct (Hboot 3%nat k Hk) as (Hd & Hs).
  - assert (Hk' := Hk). vm_compute in Hk'. injection Hk' as <-. by vm_compute.
  - split; [exact Hd|]. etrans; [exact Hs|].
    assert (Hk' := Hk). vm_compute in Hk'. by injection Hk' as <-.
Defined.

(** ** Credentials *)

(** X10. Without the credentials [aws-credentials] the Bootstrap, Deploy and
    Display stages fail at once: no shell command is run and nothing is
    checked out, whatever AWS_CREDENTIALS_ID the process environment
    carries. *)
Theorem missing_credentials_stop_aws_stages :
  ∀ (World : Type)
    (exec : string → World → pipeline string → Z * string * World)
    (is_file : string → World → string → bool)
    (checkout : string → World → option (string * string * string) → bool * World)
    (credentials : World → string → option (gmap string string))
    (given env0 : gmap string string) (w : World) (log : list Log.call) (s : stage),
    s ∈ stages →
    name s ∈ ["Bootstrap CDK"; "Deploy CDK Stack"; "Display Stack Outputs"] →
    credentials w "aws-credentials" = None →
    run_steps (Log.exec_logged exec) (Log.is_file_logged is_file)
      (Log.checkout_logged checkout) (Log.credentials_logged credentials)
      (environment given env0) (w, log) (steps s)
    = (Some credentials_error, (w, log)).
Proof.
  intros World exec is_file checkout credentials given env0 w log s Hs Hn Hcred.
  pose proof (environment_AWS_CREDENTIALS_ID given env0) as Hid.
  revert Hid. generalize (environment given env0). intros env Hid.
  assert (Hcase : stages !! 5%nat = Some s ∨ stages !! 7%nat = Some s
                  ∨ stages !! 8%nat = Some s).
  { repeat (apply elem_of_cons in Hn as [Hn|Hn]);
      [left; by apply bootstrap_by_name
      |right; left; by apply deploy_by_name
      |right; right; by apply display_by_name
      |by apply elem_of_nil in Hn]. }
  destruct Hcase as [[= <-]|[[= <-]|[= <-]]];
    cbn -[bootstrap_sh deploy_sh outputs_sh exec_stmt];
    rewrite Hid; cbn -[bootstrap_sh deploy_sh outputs_sh exec_stmt];
    unfold Log.credentials_logged; cbn [fst]; by rewrite Hcred.
Qed.

(** X10 for the Deploy stage on an agent without credentials. *)
Lemma missing_credentials_stop_aws_stages_witness :
  match stages !! 7%nat with
  | Some s =>
      name s = "Deploy CDK Stack"
      ∧ run_steps (Log.exec_logged (AwsAgent.exec "none"))
          (Log.is_file_logged AwsAgent.is_file)
          (Log.checkout_logged Agent.checkout)
          (Log.credentials_logged AwsAgent.no_credentials)
          (environment {["PR_NUMBER" := "42"]} ∅) ([], []) (steps s)
        = (Some credentials_error, ([], []))
  | None => False
  end.
Proof.
  destruct (stages !! 7%nat) as [s|] eqn:Hs; [|discriminate Hs].
  assert (Hn : name s = "Deploy CDK Stack") by (by injection Hs as <-).
  split; [exact Hn|].
  apply (missing_credentials_stop_aws_stages AwsAgent.World).
  - by eapply list_elem_of_lookup_2.
  - rewrite Hn. right. left.
  - reflexivity.
Defined.

(** ** The PR number of a build *)

(** The parameter reaches the [environment] block twice, as
    [params.PR_NUMBER] and as [env.PR_NUMBER]. *)
Lemma exported_PR_NUMBER (given env0 : gmap string string) :
  exported given env0 !! "PR_NUMBER" = params given !! "PR_NUMBER"
  ∧ params given !! "PR_NUMBER" = Some (default "default" (given !! "PR_NUMBER")).
Proof.
  unfold exported, params. rewrite lookup_insert_eq. cbv beta iota.
  by rewrite lookup_insert_eq.
Qed.

(** X11. Which PR_NUMBER a build runs with: the PR_NUMBER parameter when it
    is not empty, and default when the build was started without the
    parameter or with an empty one.  The variable PR_NUMBER of the process
    environment never counts, as Jenkins exports the parameter over it. *)
Theorem PR_NUMBER_precedence :
  ∀ (given env0 : gmap string string),
    environment given env0 !! "PR_NUMBER"
    = Some match given !! "PR_NUMBER" with
           | None | Some EmptyString => "default"
           | Some p => p
           end.
Proof.
  intros given env0. unfold environment. cbn zeta.
  do 3 (rewrite lookup_insert_ne by done). rewrite lookup_insert_eq. f_equal.
  destruct (exported_PR_NUMBER given env0) as [-> ->].
  by destruct (given !! "PR_NUMBER") as [[|a p]|].
Qed.

(** ** When Bootstrap runs *)



End PipelineExtras.

(** * Properties of the VCL snippet *)

Module VclFacts.
Import Vcl.

Lemma prefix_spec (p s : string) :
  String.prefix p s = true ↔ ∃ b, s = p +:+ b.
Proof.
  revert s. induction p as [|a p IH]; intros s.
  - split; [intros _; by exists s|]. by destruct s.
  - destruct s as [|c s].
    + split; [done|]. intros [b Hb]. unfold String.append in Hb. discriminate Hb.
    + change (String.prefix (String a p) (String c s))
        with (if Ascii.ascii_dec a c then String.prefix p s else false).
      destruct (Ascii.ascii_dec a c) as [->|Hne].
      * rewrite IH. split; intros [b Hb]; exists b.
        -- change (String c s = String c (p +:+ b)). by rewrite Hb.
        -- change (String c s = String c (p +:+ b)) in Hb. by injection Hb.
      * split; [done|]. intros [b Hb].
        change (String c s = String a (p +:+ b)) in Hb. injection Hb as -> _. done.
Qed.

(** [occurs] finds the pattern exactly when the subject contains it. *)
Lemma occurs_spec (p s : string) :
  occurs p s = true ↔ ∃ a b, s = a +:+ p +:+ b.
Proof.
  induction s as [|c s IH].
  - change (occurs p "") with (String.prefix p "" || false).
    rewrite orb_false_r, prefix_spec. split.
    + intros [b Hb]. by exists "", b.
    + intros ([|x a] & b & Hb); [by exists b|].
      unfold String.append in Hb. discriminate Hb.
  - change (occurs p (String c s)) with (String.prefix p (String c s) || occurs p s).
    rewrite orb_true_iff, prefix_spec, IH. split.
    + intros [[b Hb]|(a & b & Hb)].
      * by exists "", b.
      * exists (String c a), b. change (String c s = String c (a +:+ p +:+ b)).
        by rewrite Hb.
    + intros ([|x a] & b & Hb).
      * left. by exists b.
      * right. exists a, b.
        change (String c s = String x (a +:+ p +:+ b)) in Hb. by injection Hb.
Qed.

(** X12. What [vcl_recv] does to a request: the root path, written [/] or
    empty, is served from [/index.html]; every other URL, a root with a query
    string included, is left as it is; the request always goes to the bucket
    origin and is always passed; and receiving a request twice changes
    nothing more, so no request reaches the origin for the bare root. *)
Theorem vcl_recv_serves_index_for_root :
  ∀ (r : req),
    let r' := (vcl_recv r).1 in
    (vcl_recv r).2 = pass
    ∧ req_backend r' = Some "s3_origin"
    ∧ (req_url r = "/" ∨ req_url r = "" → req_url r' = "/index.html")
    ∧ (req_url r ≠ "/" → req_url r ≠ "" → req_url r' = req_url r)
    ∧ req_url r' ≠ "/" ∧ req_url r' ≠ ""
    ∧ (vcl_recv r').1 = r'.
Proof.
  intros [u b] r'. subst r'. unfold vcl_recv. cbn.
  destruct (String.eqb_spec u "/") as [->|H1]; cbn; [by split_and!|].
  destruct (String.eqb_spec u "") as [->|H2]; cbn; [by split_and!|].
  split_and!; try done.
  - by intros [?|?].
  - destruct (String.eqb_spec u "/"); [done|].
    by destruct (String.eqb_spec u "").
Qed.

(** X12 for a request to the root and one to the root with a query. *)
Lemma vcl_recv_serves_index_for_root_witness :
  req_url (vcl_recv {| req_url := "/"; req_backend := None |}).1 = "/index.html"
  ∧ req_url (vcl_recv {| req_url := "/?v=123"; req_backend := None |}).1 = "/?v=123".
Proof.
  split.
  - apply (vcl_recv_serves_index_for_root {| req_url := "/"; req_backend := None |}).
    by left.
  - apply (vcl_recv_serves_index_for_root {| req_url := "/?v=123"; req_backend := None |});
      discriminate.
Defined.

(** X13. What [vcl_fetch] does to a response: the Content-Type header is
    kept; ESI processing is on afterwards exactly when it was on before or
    the header contains [text/html], parameters such as a charset after it
    included; so the subroutine never turns ESI off, and a response without
    Content-Type keeps its setting. *)
Theorem vcl_fetch_enables_esi_for_html :
  ∀ (b : beresp),
    content_type (vcl_fetch b) = content_type b
    ∧ (do_esi (vcl_fetch b) = true ↔
       do_esi b = true
       ∨ ∃ ct before after,
           content_type b = Some ct ∧ ct = before +:+ "text/html" +:+ after)
    ∧ (content_type b = None → vcl_fetch b = b).
Proof.
  intros [[ct|] esi]; unfold vcl_fetch, matches; cbn.
  - destruct (occurs "text/html" ct) eqn:Ho; cbn.
    + split_and!; [done| |done]. split; [|done]. intros _. right.
      apply occurs_spec in Ho as (a & c & ->). by exists (a +:+ "text/html" +:+ c), a, c.
    + split_and!; [done| |done]. split; [by left|].
      intros [?|(ct' & a & c & [= <-] & ->)]; [done|].
      assert (occurs "text/html" (a +:+ "text/html" +:+ c) = true)
        by (apply occurs_spec; eauto).
      congruence.
  - split_and!; [done| |done]. split; [by left|].
    by intros [?|(? & ? & ? & ? & ?)].
Qed.

(** X13 for an HTML response with a charset. *)
Lemma vcl_fetch_enables_esi_for_html_witness :
  do_esi (vcl_fetch {| content_type := Some "text/html; charset=utf-8";
                       do_esi := false |}) = true.
Proof.
  apply (vcl_fetch_enables_esi_for_html
           {| content_type := Some "text/html; charset=utf-8"; do_esi := false |}).
  right. by exists "text/html; charset=utf-8", "", "; charset=utf-8".
Defined.

End VclFacts.
